(** * CSLM: a sentiment fine-tuning pipeline

    A shallow embedding of [cslm/dataset.py] (the dataset adapter
    [CSLMDataset]) and [cslm/model.py] (the training module
    [LightningModel]), with the parts of pandas, torch, transformers and
    torchmetrics that the two files call.

    Conventions.
    - A Python call that may raise is a function into [result]; the
      statements of a method body become a chain of binds, in source order.
    - A tensor is its shape and its row-major contents.
    - float32 and float64 values are [spec_float]s of the Standard Library,
      with the IEEE 754 operations at precision 24 and 53.
    - What the two files obtain from the outside (the CSV file, the model
      hub, the forward pass of the network, the cross-entropy kernel, the
      order in which [torch.sum] adds the entries of a tensor) is a field
      of the class [Externals]. *)

From Stdlib Require Import ZArith List String Ascii Bool Lia Permutation.
From Stdlib Require Import Floats.SpecFloat.
From stdpp Require Import gmap strings list.

Open Scope Z_scope.

(* ================================================================= *)
(** ** Python values, exceptions and results *)

Module Py.

(** A value read from a cell of a data frame, or used as a dict key:
    text, a number, or pandas' missing value. *)
Inductive value :=
| Str (s : string)
| Int (z : Z)
| NaN.

Inductive exn :=
| IndexError
| KeyError (key : value)
| TypeError
| ValueError
| RuntimeError
| OverflowError
| OSError.

Inductive result (A : Type) :=
| Ok (a : A)
| Raise (e : exn).
Arguments Ok {A} a.
Arguments Raise {A} e.

Definition bind {A B} (r : result A) (k : A -> result B) : result B :=
  match r with
  | Ok a => k a
  | Raise e => Raise e
  end.

Definition is_ok {A} (r : result A) : bool :=
  match r with Ok _ => true | Raise _ => false end.

(** [[f(x) for x in xs]]: the first exception stops the comprehension. *)
Fixpoint comprehension {A B} (f : A -> result B) (xs : list A) : result (list B) :=
  match xs with
  | [] => Ok []
  | x :: xs' =>
      bind (f x) (fun y => bind (comprehension f xs') (fun ys => Ok (y :: ys)))
  end.

(** [d[key]] on a dict with string keys. *)
Definition getitem {V} (d : gmap string V) (key : value) : result V :=
  match key with
  | Str s => match d !! s with
             | Some v => Ok v
             | None => Raise (KeyError key)
             end
  | _ => Raise (KeyError key)
  end.

(** [needle in hay] on two strings: [needle] occurs as a substring. *)
Fixpoint contains (needle hay : string) : bool :=
  String.prefix needle hay
  || match hay with
     | EmptyString => false
     | String _ hay' => contains needle hay'
     end.

(** What [needle in hay] decides: [needle] occurs in [hay], with some
    text before it and some text after. *)
Definition occurs_in (needle hay : string) : Prop :=
  exists before after, hay = (before ++ needle ++ after)%string.

End Py.

Import Py.

#[global] Instance result_bind : MBind result := fun A B k r => Py.bind r k.
#[global] Instance result_ret : MRet result := fun A a => Ok a.

(* ================================================================= *)
(** ** Floating point *)

Module Float.

(** torch.float32. *)
Definition f32 := spec_float.
(** A Python float. *)
Definition f64 := spec_float.

Definition f32_of_Z (z : Z) : f32 := binary_normalize 24 128 z 0 false.
Definition f32_add : f32 -> f32 -> f32 := SFadd 24 128.
Definition f32_div : f32 -> f32 -> f32 := SFdiv 24 128.
Definition f32_zero : f32 := S754_zero false.
Definition f32_one : f32 := f32_of_Z 1.

Definition is_nan (x : spec_float) : bool :=
  match x with S754_nan => true | _ => false end.

Definition f64_of_Z (z : Z) : f64 := binary_normalize 53 1024 z 0 false.
Definition f64_add : f64 -> f64 -> f64 := SFadd 53 1024.
Definition f64_mul : f64 -> f64 -> f64 := SFmul 53 1024.
Definition f64_div : f64 -> f64 -> f64 := SFdiv 53 1024.
Definition f64_zero : f64 := S754_zero false.
Definition f64_max (x y : f64) : f64 := if SFltb x y then y else x.

(** [float(z)] on a Python int: the nearest double, and [OverflowError]
    when the int is too large for one. *)
Definition float_of_int (z : Z) : result f64 :=
  match f64_of_Z z with
  | S754_infinity _ => Raise OverflowError
  | x => Ok x
  end.

(** The literal [1e-8]: the double nearest to 10^-8. *)
Definition f64_1e_8 : f64 := S754_finite false 6044629098073146 (-79).
(** [math.pi]. *)
Definition f64_pi : f64 := S754_finite false 7074237752028440 (-51).
(** The literal [0.5]. *)
Definition f64_half : f64 := f64_div (f64_of_Z 1) (f64_of_Z 2).

End Float.

Import Float.

(* ================================================================= *)
(** ** torch *)

Module Torch.

Record tensor (A : Type) := mkTensor {
  shape : list nat;
  elems : list A
}.
Arguments mkTensor {A} shape elems.
Arguments shape {A} t.
Arguments elems {A} t.

Definition numel (sh : list nat) : nat := fold_right Nat.mul 1%nat sh.

(** [torch.tensor(x)] on a Python scalar: a tensor with no dimension. *)
Definition scalar_tensor {A} (x : A) : tensor A := mkTensor [] [x].

(** [torch.tensor(xs)] on a list of scalars. *)
Definition tensor_of_list {A} (xs : list A) : tensor A :=
  mkTensor [length xs] xs.

(** [t.flatten()]. *)
Definition flatten {A} (t : tensor A) : tensor A :=
  mkTensor [numel (shape t)] (elems t).

(** [t.squeeze()]: the dimensions of size 1 are dropped. *)
Definition squeeze {A} (t : tensor A) : tensor A :=
  mkTensor (List.filter (fun d => negb (d =? 1)%nat) (shape t)) (elems t).

(** [t.float()] on an int64 tensor. *)
Definition float (t : tensor Z) : tensor f32 :=
  mkTensor (shape t) (map f32_of_Z (elems t)).

(** [t.view(-1, c)]: the first dimension is inferred; there is no such
    view when [c] is not positive or does not divide the element count.
    An empty tensor is viewed as 0 rows. *)
Definition view_rows {A} (t : tensor A) (c : Z) : result (tensor A) :=
  let n := Z.of_nat (length (elems t)) in
  if (0 <? c) && (n mod c =? 0)
  then Ok (mkTensor [Z.to_nat (n / c); Z.to_nat c] (elems t))
  else Raise RuntimeError.

(** One row of a one-hot encoding: [n] entries, a 1 at [k]. *)
Definition one_hot_row (k n : nat) : list Z :=
  map (fun j => if (j =? k)%nat then 1 else 0) (seq 0 n).

(** [torch.nn.functional.one_hot(t, num_classes)] on a CPU tensor:
    class values must be non-negative; [num_classes = -1] infers the
    count as the largest value plus one; otherwise every value must be
    smaller than [num_classes]. *)
Definition one_hot (t : tensor Z) (num_classes : Z) : result (tensor Z) :=
  match elems t with
  | [] =>
      if num_classes <=? 0 then Raise RuntimeError
      else Ok (mkTensor (shape t ++ [Z.to_nat num_classes]) [])
  | v :: vs =>
      if existsb (fun x => x <? 0) (v :: vs) then Raise RuntimeError
      else
        let mx := fold_left Z.max vs v in
        if num_classes =? -1 then
          Ok (mkTensor (shape t ++ [Z.to_nat (mx + 1)])
                (flat_map (fun x => one_hot_row (Z.to_nat x) (Z.to_nat (mx + 1))) (v :: vs)))
        else if mx <? num_classes then
          Ok (mkTensor (shape t ++ [Z.to_nat num_classes])
                (flat_map (fun x => one_hot_row (Z.to_nat x) (Z.to_nat num_classes)) (v :: vs)))
        else Raise RuntimeError
  end.

(** The order of the arg-max reduction: [a] at index [i] beats [b] at
    index [j] when it is larger, a NaN beats every number, and on a tie
    the smaller index wins. *)
Definition greater_or_nan (a : f32) (i : nat) (b : f32) (j : nat) : bool :=
  if is_nan a then (if is_nan b then (i <? j)%nat else true)
  else if SFeqb a b then (i <? j)%nat
  else SFltb b a.

Fixpoint argmax_from (best : f32) (besti : nat) (i : nat) (xs : list f32) : nat :=
  match xs with
  | [] => besti
  | x :: xs' =>
      if greater_or_nan x i best besti
      then argmax_from x i (S i) xs'
      else argmax_from best besti (S i) xs'
  end.

Definition argmax_list (xs : list f32) : nat :=
  match xs with
  | [] => 0%nat
  | x :: xs' => argmax_from x 0%nat 1%nat xs'
  end.

(** The entries [t[i, 0, r], t[i, 1, r], ...] of a tensor seen as
    [d0 x d1 x inner]. *)
Definition lane {A} (dflt : A) (xs : list A) (d1 inner i r : nat) : list A :=
  map (fun j => nth ((i * d1 + j) * inner + r)%nat xs dflt) (seq 0 d1).

(** [torch.argmax(t, dim=1)]: there must be a dimension 1, and it must
    not be empty. *)
Definition argmax_dim1 (t : tensor f32) : result (tensor Z) :=
  match shape t with
  | d0 :: d1 :: rest =>
      if (d1 =? 0)%nat then Raise IndexError
      else
        let inner := numel rest in
        Ok (mkTensor (d0 :: rest)
              (flat_map (fun i =>
                 map (fun r => Z.of_nat (argmax_list (lane f32_zero (elems t) d1 inner i r)))
                     (seq 0 inner))
                 (seq 0 d0)))
  | _ => Raise IndexError
  end.

(** The float32 sum of a list, taken from left to right. *)
Definition sum_f32 (xs : list f32) : f32 := fold_left f32_add xs f32_zero.

(** The additions a reduction kernel makes over the entries of a tensor:
    accumulators start from 0.0, every entry is taken at its position, and
    partial sums are added two by two.  Which additions are made, and in
    which order, is the kernel's choice. *)
Inductive additions :=
| start
| entry (i : nat)
| plus (l r : additions).

(** The positions a reduction takes, from left to right. *)
Fixpoint entries (a : additions) : list nat :=
  match a with
  | start => []
  | entry i => [i]
  | plus l r => entries l ++ entries r
  end.

(** The float32 value of a reduction over [xs]. *)
Fixpoint reduce (a : additions) (xs : list f32) : f32 :=
  match a with
  | start => f32_zero
  | entry i => nth i xs f32_zero
  | plus l r => f32_add (reduce l xs) (reduce r xs)
  end.

(** The reduction of a plain loop over [n] entries. *)
Fixpoint left_to_right (n : nat) : additions :=
  match n with
  | O => start
  | S n' => plus (left_to_right n') (entry n')
  end.

(** [t.mean()] of a float32 tensor: the float32 sum of the entries, as the
    kernel [order] reduces a tensor of that many entries, divided by their
    count; NaN on an empty tensor. *)
Definition mean (order : nat -> additions) (t : tensor f32) : f32 :=
  f32_div (reduce (order (length (elems t))) (elems t))
          (f32_of_Z (Z.of_nat (length (elems t)))).

End Torch.

Import Torch.

(* ================================================================= *)
(** ** pandas *)

Module Pandas.

(** The frame [pd.read_csv] returns, as far as the adapter reads it: the
    data rows of the file (the header line apart), each with its first
    two columns.  The file format has at least two columns. *)
Record DataFrame := mkDataFrame {
  rows : list (value * value)
}.

(** A position along an axis of length [n] (an axis has fewer than 2^63
    positions): Python counts a negative position from the end; a position
    outside [-n, n) is out of bounds when it is a 64-bit integer, and cannot
    be converted to an index at all when it is not. *)
Definition position (n : nat) (i : Z) : result nat :=
  if (0 <=? i) && (i <? Z.of_nat n) then Ok (Z.to_nat i)
  else if (- Z.of_nat n <=? i) && (i <? 0) then Ok (Z.to_nat (Z.of_nat n + i))
  else if (- 2 ^ 63 <=? i) && (i <? 2 ^ 63) then Raise IndexError
  else Raise OverflowError.

(** [df.iloc[idx, col]]: the column is resolved first, then the row. *)
Definition iloc (df : DataFrame) (idx col : Z) : result value :=
  c ← position 2 col;
  r ← position (length (rows df)) idx;
  match rows df !! r with
  | Some (c0, c1) => Ok (if (c =? 0)%nat then c0 else c1)
  | None => Raise IndexError
  end.

End Pandas.

Import Pandas.

(* ================================================================= *)
(** ** transformers: the tokenizer *)

Module Tokenizers.

Inductive Side := left_side | right_side.

(** A pretrained tokenizer, as [encode_plus] on one sentence sees it:
    the token ids of a text, the special tokens its template puts before
    and after a single sequence, the id of its padding token, if it has
    one, and the sides on which it pads and truncates. *)
Record Tokenizer := mkTokenizer {
  tokenize : string -> list Z;
  special_prefix : list Z;
  special_suffix : list Z;
  pad_token_id : option Z;
  padding_side : Side;
  truncation_side : Side
}.

(** [BatchEncoding] with [return_tensors='pt']: two tensors of shape
    [1 x length]. *)
Record BatchEncoding := mkBatchEncoding {
  enc_input_ids : tensor Z;
  enc_attention_mask : tensor Z
}.

(** [tokenizer.encode_plus(sentence, max_length=n, padding='max_length',
    truncation=True, add_special_tokens=True, return_attention_mask=True,
    return_tensors='pt')].

    Padding is refused when the tokenizer has no padding token; the text
    must be a string.  The text's tokens are cut on the truncation side to
    leave room for the special tokens, the special tokens are put around
    them, and the sequence is filled up to [n] with the padding token on
    the padding side; the mask is 1 on the sequence and 0 on the padding. *)
Definition encode_plus (tok : Tokenizer) (sentence : value) (max_length : nat)
  : result BatchEncoding :=
  match pad_token_id tok with
  | None => Raise ValueError
  | Some pad =>
      match sentence with
      | Str s =>
          let n_special := (length (special_prefix tok) + length (special_suffix tok))%nat in
          let room := (max_length - n_special)%nat in
          let tokens := tokenize tok s in
          let kept :=
            match truncation_side tok with
            | right_side => take room tokens
            | left_side => drop (length tokens - room) tokens
            end in
          let ids := special_prefix tok ++ kept ++ special_suffix tok in
          let fill := (max_length - length ids)%nat in
          let width := (length ids + fill)%nat in
          match padding_side tok with
          | right_side =>
              Ok (mkBatchEncoding
                    (mkTensor [1%nat; width] (ids ++ replicate fill pad))
                    (mkTensor [1%nat; width]
                       (replicate (length ids) 1 ++ replicate fill 0)))
          | left_side =>
              Ok (mkBatchEncoding
                    (mkTensor [1%nat; width] (replicate fill pad ++ ids))
                    (mkTensor [1%nat; width]
                       (replicate fill 0 ++ replicate (length ids) 1)))
          end
      | _ => Raise TypeError
      end
  end.

End Tokenizers.

Import Tokenizers.

(* ================================================================= *)
(** ** The hyperparameters *)

(** [hparams] / [config]: the attributes the two files read. *)
Record HParams := mkHParams {
  upstream_model : string;
  num_classes : Z;
  lr : f64;
  weight_decay : f64;
  epochs : Z;
  freeze : string
}.

(* ================================================================= *)
(** ** The network and what comes from outside *)

(** A [torch.nn.Parameter] of the network: which tensor it is, and whether gradient
    updates reach it. *)
Record Param := mkParam {
  param_id : nat;
  requires_grad : bool
}.

#[global] Instance Param_eq_dec : EqDecision Param.
Proof. solve_decision. Defined.

(** [AutoConfig.from_pretrained(name, num_labels=n)]. *)
Record AutoConfig := mkAutoConfig {
  config_name : string;
  num_labels : Z
}.

(** The pretrained sequence classifier, as the training module reads it:
    [model.named_parameters()], in order. *)
Record Network := mkNetwork {
  named_parameters : list (string * Param)
}.

(** The capabilities the two files take from their libraries as they are:
    the file system, the model hub, the network's forward pass and the
    kernels on floating-point tensors. *)
Class Externals := {
  (** [pd.read_csv(path)] *)
  read_csv : string -> result DataFrame;
  (** [AutoTokenizer.from_pretrained(name, use_fast=True)] *)
  tokenizer_from_pretrained : string -> result Tokenizer;
  (** [AutoConfig.from_pretrained(name, num_labels=n)] *)
  auto_config_from_pretrained : string -> Z -> result AutoConfig;
  (** [AutoModelForSequenceClassification.from_pretrained(name, config=c)] *)
  model_from_pretrained : string -> AutoConfig -> result Network;
  (** [model(input_ids=.., attention_mask=..)[0]]: the logits *)
  logits_of : Network -> tensor Z -> tensor Z -> result (tensor f32);
  (** [F.softmax(preds, dim=1)] *)
  softmax_dim1 : tensor f32 -> tensor f32;
  (** [torch.nn.CrossEntropyLoss()(preds, labels)] *)
  cross_entropy : tensor f32 -> tensor f32 -> result f32;
  (** [BinaryAccuracy] on predictions and targets of one shape *)
  binary_accuracy : tensor f32 -> tensor Z -> result f32;
  (** [math.cos] *)
  math_cos : f64 -> f64;
  (** the additions [torch.sum] makes over a float32 tensor of [n] entries *)
  sum_order : nat -> additions;
  (** it takes every entry once *)
  sum_order_entries : forall n, Permutation (entries (sum_order n)) (seq 0 n)
}.

(* ================================================================= *)
(** ** torchmetrics *)

Module Torchmetrics.

Inductive Task := binary | multiclass.

(** [torchmetrics.Accuracy(task=.., num_classes=..)].  The totals the
    metric keeps for [compute()] are read nowhere in the module and are
    left out. *)
Record Accuracy := mkAccuracy {
  task : Task;
  metric_num_classes : Z
}.

(** The constructor: the multi-class metric wants at least 2 classes. *)
Definition new_accuracy (task : Task) (num_classes : Z) : result Accuracy :=
  match task with
  | binary => Ok (mkAccuracy binary num_classes)
  | multiclass =>
      if num_classes <? 2 then Raise ValueError
      else Ok (mkAccuracy multiclass num_classes)
  end.

(** The class predicted for each row of a [n x c] score tensor. *)
Definition predicted_classes (preds : tensor f32) (n c : nat) : list Z :=
  map (fun i => Z.of_nat (argmax_list (lane f32_zero (elems preds) c 1 i 0))) (seq 0 n).

(** How many positions of two lists agree. *)
Fixpoint count_equal (xs ys : list Z) : Z :=
  match xs, ys with
  | x :: xs', y :: ys' => (if x =? y then 1 else 0) + count_equal xs' ys'
  | _, _ => 0
  end.

(** [_safe_divide]: a float32 quotient, and 0 where the denominator is 0. *)
Definition safe_divide (num denom : Z) : f32 :=
  if denom =? 0 then f32_zero else f32_div (f32_of_Z num) (f32_of_Z denom).

(** [preds == target] on two vectors, as torch broadcasts them: entry by
    entry when they have the same length, a single entry against every
    entry of the other vector, and no comparison otherwise. *)
Definition broadcast_pairs (xs ys : list Z) : option (list (Z * Z)) :=
  if (length xs =? length ys)%nat then Some (zip xs ys)
  else match xs, ys with
       | _, [y] => Some (map (fun x => (x, y)) xs)
       | [x], _ => Some (map (fun y => (x, y)) ys)
       | _, _ => None
       end.

(** [MulticlassAccuracy] (micro average, top 1) called on float scores of
    rank 2, which is how the training module calls it.  The targets must
    be a vector, the scores must have [num_classes] columns, and the
    targets must not show more distinct values than there are classes;
    neither side may be empty, and the predicted classes (the arg-max of
    each row) must compare with the targets.  The value is the share of
    the comparisons that agree. *)
Definition multiclass_accuracy (classes : Z) (preds : tensor f32) (target : tensor Z)
  : result f32 :=
  match shape preds, shape target with
  | [n; c], [n'] =>
      if negb (Z.of_nat c =? classes) then Raise ValueError
      else if classes <? Z.of_nat (length (remove_dups (elems target)))
      then Raise RuntimeError
      else if (n =? 0)%nat || (n' =? 0)%nat then Raise RuntimeError
      else
        match broadcast_pairs (predicted_classes preds n c) (elems target) with
        | None => Raise RuntimeError
        | Some pairs =>
            let tp := count_equal (map fst pairs) (map snd pairs) in
            let fn := Z.of_nat (length pairs) - tp in
            Ok (safe_divide tp (tp + fn))
        end
  | _, _ => Raise ValueError
  end.

(** [self.accuracy(preds, target)].  The binary metric takes predictions
    and targets of one and the same shape, and raises otherwise. *)
Definition forward `{Externals} (m : Accuracy) (preds : tensor f32) (target : tensor Z)
  : result f32 :=
  match task m with
  | binary =>
      if decide (shape preds = shape target)
      then binary_accuracy preds target
      else Raise RuntimeError
  | multiclass => multiclass_accuracy (metric_num_classes m) preds target
  end.

End Torchmetrics.

(* ================================================================= *)
(** ** transformers: the schedule *)

Module Schedules.

(** The schedules with warm-up that the module imports. *)
Inductive Kind := linear_with_warmup | cosine_with_warmup.

(** The closure such a schedule builds. *)
Record Schedule := mkSchedule {
  kind : Kind;
  num_warmup_steps : Z;
  num_training_steps : Z;
  num_cycles : f64
}.

(** [get_linear_schedule_with_warmup(optimizer, warmup, training)]. *)
Definition get_linear_schedule_with_warmup (warmup training : Z) : Schedule :=
  mkSchedule linear_with_warmup warmup training f64_half.

(** [get_cosine_schedule_with_warmup(optimizer, warmup, training)]:
    [num_cycles] is left at its default, 0.5. *)
Definition get_cosine_schedule_with_warmup (warmup training : Z) : Schedule :=
  mkSchedule cosine_with_warmup warmup training f64_half.

(** The factor applied to the learning rate at [current_step]. *)
Definition lr_lambda `{Externals} (s : Schedule) (current_step : Z) : result f64 :=
  if current_step <? num_warmup_steps s then
    step ← float_of_int current_step;
    warmup ← float_of_int (Z.max 1 (num_warmup_steps s));
    mret (f64_div step warmup)
  else
    match kind s with
    | linear_with_warmup =>
        left ← float_of_int (num_training_steps s - current_step);
        span ← float_of_int (Z.max 1 (num_training_steps s - num_warmup_steps s));
        mret (f64_max f64_zero (f64_div left span))
    | cosine_with_warmup =>
        done ← float_of_int (current_step - num_warmup_steps s);
        span ← float_of_int (Z.max 1 (num_training_steps s - num_warmup_steps s));
        let progress := f64_div done span in
        mret (f64_max f64_zero
                (f64_mul f64_half
                   (f64_add (f64_of_Z 1)
                      (math_cos
                         (f64_mul (f64_mul (f64_mul f64_pi (num_cycles s)) (f64_of_Z 2))
                                  progress)))))
    end.

End Schedules.

(* ================================================================= *)
(** ** cslm/dataset.py *)

Module CSLMDataset.

Record t := mk {
  data : DataFrame;
  hparams : HParams;
  tokenizer : Tokenizer;
  labels2num : gmap string Z
}.

(** The dict [__getitem__] returns. *)
Record Item := mkItem {
  input_ids : tensor Z;
  attention_mask : tensor Z;
  labels : tensor f32
}.

Definition __init__ `{Externals} (CSVPath : string) (hparams : HParams) (is_train : bool)
  : result t :=
  data ← read_csv CSVPath;
  tokenizer ← tokenizer_from_pretrained (upstream_model hparams);
  mret (mk data hparams tokenizer
          {[ "positive" := 0; "negative" := 1; "neutral" := 2 ]}).

Definition __len__ (self : t) : nat := length (rows (data self)).

Definition __getitem__ (self : t) (idx : Z) : result Item :=
  sentence ← iloc (data self) idx 0;
  label ← iloc (data self) idx 1;
  label_num ← Py.getitem (labels2num self) label;
  one_hot_label ← one_hot (scalar_tensor label_num) (num_classes (hparams self));
  let target_label := float one_hot_label in
  encoding ← encode_plus (tokenizer self) sentence 128;
  mret (mkItem (flatten (enc_input_ids encoding))
               (squeeze (enc_attention_mask encoding))
               target_label).

End CSLMDataset.

(* ================================================================= *)
(** ** cslm/model.py *)

Module LightningModel.

Import Torchmetrics Schedules.

(** One call of [self.log]. *)
Record LogEntry := mkLogEntry {
  log_name : string;
  log_value : f32;
  on_step : bool;
  on_epoch : bool;
  prog_bar : bool
}.

Record t := mk {
  config : HParams;
  auto_config : AutoConfig;
  model : Network;
  accuracy : Accuracy;
  logged : list LogEntry
}.

(** A batch of the loader: the items' tensors, stacked. *)
Record Batch := mkBatch {
  input_ids : tensor Z;
  attention_mask : tensor Z;
  labels : tensor f32
}.

(** The loop of [__init__] over [named_parameters()]. *)
Definition freeze_encoder (m : Network) : Network :=
  mkNetwork
    (map (fun '(name, param) =>
            if negb (contains "classifier" name)
            then (name, mkParam (param_id param) false)
            else (name, param))
         (named_parameters m)).

Definition __init__ `{Externals} (config : HParams) : result t :=
  auto_config ← auto_config_from_pretrained (upstream_model config) (num_classes config);
  model ← model_from_pretrained (upstream_model config) auto_config;
  let task := if num_classes config =? 2 then binary else multiclass in
  accuracy ← new_accuracy task (num_classes config);
  let model := if String.eqb (freeze config) "true" then freeze_encoder model else model in
  mret (mk config auto_config model accuracy []).

Definition forward `{Externals} (self : t) (input_ids attention_mask : tensor Z)
  : result (tensor f32) :=
  logits_of (model self) input_ids attention_mask.

Definition training_step `{Externals} (self : t) (batch : Batch) (batch_idx : Z)
  : result (gmap string f32) :=
  let input_ids := input_ids batch in
  let labels := labels batch in
  let attention_mask := attention_mask batch in
  logits ← forward self input_ids attention_mask;
  preds ← view_rows logits (num_classes (config self));
  let pred_probs := softmax_dim1 preds in
  target ← argmax_dim1 labels;
  acc ← Torchmetrics.forward (accuracy self) preds target;
  loss ← cross_entropy preds labels;
  mret ({[ "loss" := loss; "acc" := acc ]} : gmap string f32).

Definition log (self : t) (name : string) (value : f32)
    (on_step on_epoch prog_bar : bool) : t :=
  mk (config self) (auto_config self) (model self) (accuracy self)
     (logged self ++ [mkLogEntry name value on_step on_epoch prog_bar]).

Definition training_epoch_end `{Externals} (self : t) (outputs : list (gmap string f32))
  : result t :=
  losses ← comprehension (fun x => Py.getitem x (Str "loss")) outputs;
  let loss := mean sum_order (tensor_of_list losses) in
  accs ← comprehension (fun x => Py.getitem x (Str "acc")) outputs;
  let train_acc := mean sum_order (tensor_of_list accs) in
  let self := log self "train/loss" loss false true true in
  let self := log self "train/acc" train_acc false true true in
  mret self.

Definition validation_step `{Externals} (self : t) (batch : Batch)
    (batch_idx dataloader_idx : Z) : result (gmap string f32) :=
  let input_ids := input_ids batch in
  let attention_mask := attention_mask batch in
  logits ← forward self input_ids attention_mask;
  let labels := labels batch in
  preds ← view_rows logits (num_classes (config self));
  let pred_probs := softmax_dim1 preds in
  target ← argmax_dim1 labels;
  acc ← Torchmetrics.forward (accuracy self) preds target;
  loss ← cross_entropy preds labels;
  mret ({[ "val_loss" := loss; "val_acc" := acc ]} : gmap string f32).

Definition validation_epoch_end `{Externals} (self : t) (outputs : list (gmap string f32))
  : result t :=
  accs ← comprehension (fun x => Py.getitem x (Str "val_acc")) outputs;
  let val_acc := mean sum_order (tensor_of_list accs) in
  losses ← comprehension (fun x => Py.getitem x (Str "val_loss")) outputs;
  let loss := mean sum_order (tensor_of_list losses) in
  let self := log self "val/loss" loss false true true in
  let self := log self "val/acc" val_acc false true true in
  mret self.

Definition test_step `{Externals} (self : t) (batch : Batch)
    (batch_idx dataloader_idx : Z) : result (gmap string f32) :=
  let input_ids := input_ids batch in
  let attention_mask := attention_mask batch in
  logits ← forward self input_ids attention_mask;
  let labels := labels batch in
  preds ← view_rows logits (num_classes (config self));
  let pred_probs := softmax_dim1 preds in
  target ← argmax_dim1 labels;
  acc ← Torchmetrics.forward (accuracy self) preds target;
  loss ← cross_entropy preds labels;
  mret ({[ "test_loss" := loss; "test_acc" := acc ]} : gmap string f32).

Definition test_epoch_end `{Externals} (self : t) (outputs : list (gmap string f32))
  : result t :=
  accs ← comprehension (fun x => Py.getitem x (Str "test_acc")) outputs;
  let train_acc := mean sum_order (tensor_of_list accs) in
  losses ← comprehension (fun x => Py.getitem x (Str "test_loss")) outputs;
  let loss := mean sum_order (tensor_of_list losses) in
  let self := log self "test/loss" loss false true true in
  let self := log self "test/acc" train_acc false true true in
  mret self.

(** A dict of [optimizer_grouped_parameters]. *)
Record ParamGroup := mkParamGroup {
  params : list Param;
  group_weight_decay : f64
}.

(** The optimizers of [torch.optim]. *)
Inductive OptimizerClass := SGD | Adam | AdamW.

(** [AdamW(groups, lr=.., eps=..)]. *)
Record Optimizer := mkOptimizer {
  optimizer_class : OptimizerClass;
  param_groups : list ParamGroup;
  optimizer_lr : f64;
  optimizer_eps : f64
}.

(** The dict [{"scheduler": .., "interval": ..}]. *)
Record SchedulerConfig := mkSchedulerConfig {
  scheduler : Schedule;
  interval : string
}.

(** [any(nd in n for nd in no_decay)]. *)
Definition any_in (no_decay : list string) (n : string) : bool :=
  existsb (fun nd => contains nd n) no_decay.

Definition configure_optimizers (self : t) : list Optimizer * list SchedulerConfig :=
  let adam_epsilon := f64_1e_8 in
  let warmup_steps := 0 in
  let model := model self in
  let no_decay := ["bias"; "LayerNorm.weight"]%string in
  let optimizer_grouped_parameters :=
    [ mkParamGroup
        (map snd (List.filter (fun '(n, p) => negb (any_in no_decay n))
                              (named_parameters model)))
        (weight_decay (config self));
      mkParamGroup
        (map snd (List.filter (fun '(n, p) => any_in no_decay n)
                              (named_parameters model)))
        f64_zero ] in
  let optimizer :=
    mkOptimizer AdamW optimizer_grouped_parameters (lr (config self)) adam_epsilon in
  let scheduler := get_cosine_schedule_with_warmup 5 (epochs (config self)) in
  let scheduler := mkSchedulerConfig scheduler "step" in
  ([optimizer], [scheduler]).

End LightningModel.

(* ================================================================= *)
(** ** The per-phase step contract, in the specification's words *)

Module Contract.

(** Run the model forward to obtain raw scores; reshape them to
    (batch size, class count); compute the accuracy of the raw scores
    against the class indices obtained by arg-max of the one-hot labels;
    compute the loss by cross-entropy against the one-hot labels; return
    the pair (loss, accuracy). *)
Definition per_phase_step `{Externals} (self : LightningModel.t)
    (batch : LightningModel.Batch) : result (f32 * f32) :=
  raw_scores ← logits_of (LightningModel.model self)
                 (LightningModel.input_ids batch) (LightningModel.attention_mask batch);
  scores ← view_rows raw_scores (num_classes (LightningModel.config self));
  true_classes ← argmax_dim1 (LightningModel.labels batch);
  accuracy ← Torchmetrics.forward (LightningModel.accuracy self) scores true_classes;
  loss ← cross_entropy scores (LightningModel.labels batch);
  mret (loss, accuracy).

(** Row [i] of a matrix with [c] columns, stored row after row. *)
Definition row {A} (xs : list A) (c i : nat) : list A :=
  take c (drop (i * c) xs).

(** The arg-max over the classes, for each of [n] rows. *)
Definition row_argmax (xs : list f32) (n c : nat) : list Z :=
  map (fun i => Z.of_nat (argmax_list (row xs c i))) (seq 0 n).

(** Accuracy of predicted against true classes: the share of positions
    where they agree, as a float32. *)
Definition share_equal (predicted true_classes : list Z) : f32 :=
  f32_div (f32_of_Z (Torchmetrics.count_equal predicted true_classes))
          (f32_of_Z (Z.of_nat (length predicted))).

(** The pair, returned under the keys of a phase. *)
Definition keyed (loss_key acc_key : string) (r : result (f32 * f32))
  : result (gmap string f32) :=
  pair ← r; mret ({[ loss_key := fst pair; acc_key := snd pair ]} : gmap string f32).

(** The two scalars a step returned, read back under the keys of its phase. *)
Definition scalars (loss_key acc_key : string) (r : result (gmap string f32))
  : result (option f32 * option f32) :=
  d ← r; mret (d !! loss_key, d !! acc_key).

End Contract.

(* ================================================================= *)
(** ** A small concrete instance *)

Module Sample.

Import Torchmetrics Schedules.

(** A byte-level tokenizer in BERT's layout: [CLS] is 101, [SEP] is 102
    and [PAD] is 0. *)
Definition bytes_tokenizer : Tokenizer :=
  mkTokenizer
    (fun s => map (fun a => Z.of_nat (nat_of_ascii a)) (list_ascii_of_string s))
    [101] [102] (Some 0) right_side right_side.

(** The same tokenizer without a padding token, as GPT-2's. *)
Definition unpadded_tokenizer : Tokenizer :=
  mkTokenizer (tokenize bytes_tokenizer) [] [] None right_side right_side.

Definition frame : DataFrame :=
  mkDataFrame
    [ (Str "great movie", Str "positive");
      (Str "so so", Str "neutral");
      (Str "hmm", Str "mixed");
      (NaN, Str "negative") ].

Definition hp (classes : Z) (freeze : string) : HParams :=
  mkHParams "bert-base-uncased" classes
    (S754_finite false 5902958103587057 (-68)) f64_1e_8 10 freeze.

Definition network : Network :=
  mkNetwork
    [ ("bert.embeddings.word_embeddings.weight", mkParam 0 true);
      ("bert.embeddings.LayerNorm.weight", mkParam 1 true);
      ("bert.embeddings.LayerNorm.bias", mkParam 2 true);
      ("bert.encoder.layer.0.attention.self.query.weight", mkParam 3 true);
      ("bert.encoder.layer.0.attention.self.query.bias", mkParam 4 true);
      ("bert.pooler.dense.weight", mkParam 5 true);
      ("bert.pooler.dense.bias", mkParam 6 true);
      ("classifier.weight", mkParam 7 true);
      ("classifier.bias", mkParam 8 true) ]%string.

(** Raw scores [[2,1,0],[0,1,2]]. *)
Definition scores3 : tensor f32 :=
  mkTensor [2; 3]%nat (map f32_of_Z [2; 1; 0; 0; 1; 2]).

(** One-hot labels [[1,0,0],[0,0,1]]. *)
Definition labels3 : tensor f32 :=
  mkTensor [2; 3]%nat (map f32_of_Z [1; 0; 0; 0; 0; 1]).

(** Raw scores [[2,1],[0,1]] and one-hot labels [[1,0],[0,1]]. *)
Definition scores2 : tensor f32 :=
  mkTensor [2; 2]%nat (map f32_of_Z [2; 1; 0; 1]).
Definition labels2 : tensor f32 :=
  mkTensor [2; 2]%nat (map f32_of_Z [1; 0; 0; 1]).

(** The plain loop takes every entry once. *)
Lemma left_to_right_entries (n : nat) :
  Permutation (entries (left_to_right n)) (seq 0 n).
Proof.
  induction n as [| n IH]; [constructor |].
  rewrite seq_S. cbn [left_to_right entries]. now apply Permutation_app.
Qed.

(** Externals whose file is [frame], whose hub knows one tokenizer and one
    network, whose forward pass returns [scores], and whose sum is a plain
    loop. *)
Definition externals (tok : Tokenizer) (scores : tensor f32) : Externals :=
  {| read_csv := fun _ => Ok frame;
     tokenizer_from_pretrained := fun _ => Ok tok;
     auto_config_from_pretrained := fun name n => Ok (mkAutoConfig name n);
     model_from_pretrained := fun _ _ => Ok network;
     logits_of := fun _ _ _ => Ok scores;
     softmax_dim1 := fun t => t;
     cross_entropy := fun _ _ => Ok f32_zero;
     binary_accuracy := fun _ _ => Ok f32_zero;
     math_cos := fun x => x;
     sum_order := left_to_right;
     sum_order_entries := left_to_right_entries |}.

Definition ids2 : tensor Z := mkTensor [2; 2]%nat [101; 102; 101; 102].
Definition batch3 : LightningModel.Batch := LightningModel.mkBatch ids2 ids2 labels3.
Definition batch2 : LightningModel.Batch := LightningModel.mkBatch ids2 ids2 labels2.

(** The adapter over [frame], for [classes] classes and tokenizer [tok]. *)
Definition dataset (classes : Z) (tok : Tokenizer) : CSLMDataset.t :=
  CSLMDataset.mk frame (hp classes "true") tok
    {[ "positive" := 0; "negative" := 1; "neutral" := 2 ]}.

(** A training module over [network] as loaded, for 3 classes. *)
Definition lightning : LightningModel.t :=
  LightningModel.mk (hp 3 "false") (mkAutoConfig "bert-base-uncased" 3) network
    (mkAccuracy multiclass 3) [].

(** float32 values nearest to 0.2, 0.4 and 0.6. *)
Definition f32_0_2 : f32 := S754_finite false 13421773 (-26).
Definition f32_0_4 : f32 := S754_finite false 13421773 (-25).
Definition f32_0_6 : f32 := S754_finite false 10066330 (-24).

End Sample.

(* ================================================================= *)
(** * Properties *)

Ltac py_unfold :=
  unfold mbind, result_bind, mret, result_ret, Py.bind in *.

(** ** Positions and rows *)

Section Positions.

Lemma position_inside (n i : nat) :
  (i < n)%nat -> position n (Z.of_nat i) = Ok i.
Proof.
  intros Hi. unfold position.
  replace (0 <=? Z.of_nat i) with true by (symmetry; apply Z.leb_le; lia).
  replace (Z.of_nat i <? Z.of_nat n) with true by (symmetry; apply Z.ltb_lt; lia).
  simpl. now rewrite Nat2Z.id.
Qed.

Lemma position_outside (n : nat) (i : Z) :
  Z.of_nat n <= i \/ i < - Z.of_nat n ->
  position n i
  = Raise (if (- 2 ^ 63 <=? i) && (i <? 2 ^ 63) then IndexError else OverflowError).
Proof.
  intros Hi. unfold position.
  destruct (Z.leb_spec 0 i), (Z.ltb_spec i (Z.of_nat n)),
    (Z.leb_spec (- Z.of_nat n) i), (Z.ltb_spec i 0); simpl; try lia;
    now destruct ((- 2 ^ 63 <=? i) && (i <? 2 ^ 63)).
Qed.

Lemma position_from_end (n : nat) (i : Z) :
  - Z.of_nat n <= i < 0 -> position n i = position n (Z.of_nat n + i).
Proof.
  intros Hi. unfold position.
  destruct (Z.leb_spec 0 i), (Z.ltb_spec i (Z.of_nat n)),
    (Z.leb_spec (- Z.of_nat n) i), (Z.ltb_spec i 0),
    (Z.leb_spec 0 (Z.of_nat n + i)), (Z.ltb_spec (Z.of_nat n + i) (Z.of_nat n));
    simpl; try reflexivity; lia.
Qed.

Lemma in_int64 (i : Z) :
  - 2 ^ 63 <= i < 2 ^ 63 -> (- 2 ^ 63 <=? i) && (i <? 2 ^ 63) = true.
Proof.
  intros [Hlo Hhi]. apply andb_true_iff. split; [now apply Z.leb_le | now apply Z.ltb_lt].
Qed.

Lemma iloc_inside (df : DataFrame) (i : nat) (c0 c1 : value) :
  rows df !! i = Some (c0, c1) ->
  iloc df (Z.of_nat i) 0 = Ok c0 /\ iloc df (Z.of_nat i) 1 = Ok c1.
Proof.
  intros Hrow. pose proof (lookup_lt_Some _ _ _ Hrow) as Hlt.
  unfold iloc. py_unfold.
  rewrite (position_inside _ _ Hlt). simpl. rewrite Hrow. auto.
Qed.

Lemma iloc_outside (df : DataFrame) (idx : Z) :
  Z.of_nat (length (rows df)) <= idx \/ idx < - Z.of_nat (length (rows df)) ->
  iloc df idx 0
  = Raise (if (- 2 ^ 63 <=? idx) && (idx <? 2 ^ 63) then IndexError else OverflowError).
Proof.
  intros Hi. unfold iloc. py_unfold.
  now rewrite (position_outside _ _ Hi).
Qed.

End Positions.

(** ** The dataset adapter *)

Section Dataset.

Context `{Externals}.

(** What [__init__] leaves in the adapter. *)
Lemma dataset_init_inv (path : string) (hp : HParams) (is_train : bool)
    (self : CSLMDataset.t) :
  CSLMDataset.__init__ path hp is_train = Ok self ->
  read_csv path = Ok (CSLMDataset.data self)
  /\ tokenizer_from_pretrained (upstream_model hp) = Ok (CSLMDataset.tokenizer self)
  /\ CSLMDataset.hparams self = hp
  /\ CSLMDataset.labels2num self
     = {[ "positive" := 0; "negative" := 1; "neutral" := 2 ]}.
Proof.
  unfold CSLMDataset.__init__. py_unfold.
  destruct (read_csv path) as [df |]; [| discriminate].
  destruct (tokenizer_from_pretrained (upstream_model hp)) as [tok |]; [| discriminate].
  intros [= <-]. simpl. auto.
Qed.

Lemma vocabulary_lookup (label : string) (k : Z) :
  ({[ "positive" := 0; "negative" := 1; "neutral" := 2 ]} : gmap string Z) !! label = Some k ->
  (label = "positive" /\ k = 0) \/ (label = "negative" /\ k = 1)
  \/ (label = "neutral" /\ k = 2).
Proof.
  intros Hl.
  destruct (decide (label = "positive")) as [-> | H1].
  { rewrite lookup_insert_eq in Hl. left. split; congruence. }
  rewrite lookup_insert_ne in Hl by congruence.
  destruct (decide (label = "negative")) as [-> | H2].
  { rewrite lookup_insert_eq in Hl. right; left. split; congruence. }
  rewrite lookup_insert_ne in Hl by congruence.
  destruct (decide (label = "neutral")) as [-> | H3].
  { rewrite lookup_singleton_eq in Hl. right; right. split; congruence. }
  rewrite lookup_singleton_ne in Hl by congruence. discriminate.
Qed.

Lemma vocabulary_miss (label : value) :
  label <> Str "positive" -> label <> Str "negative" -> label <> Str "neutral" ->
  Py.getitem ({[ "positive" := 0; "negative" := 1; "neutral" := 2 ]} : gmap string Z) label
  = Raise (KeyError label).
Proof.
  intros H1 H2 H3. destruct label as [s | z |]; try reflexivity.
  unfold Py.getitem.
  rewrite lookup_insert_ne by congruence.
  rewrite lookup_insert_ne by congruence.
  rewrite lookup_singleton_ne by congruence.
  reflexivity.
Qed.

End Dataset.

(** C2. A row whose label is not one of "positive", "negative", "neutral"
    makes [__getitem__] at that row's index raise [KeyError] on the label:
    the lookup in [labels2num] fails and nothing in the method catches it. *)
Theorem getitem_unknown_label `{Externals} (path : string) (hp : HParams)
    (is_train : bool) (self : CSLMDataset.t) (i : nat) (sentence label : value) :
  CSLMDataset.__init__ path hp is_train = Ok self ->
  rows (CSLMDataset.data self) !! i = Some (sentence, label) ->
  label <> Str "positive" -> label <> Str "negative" -> label <> Str "neutral" ->
  CSLMDataset.__getitem__ self (Z.of_nat i) = Raise (KeyError label).
Proof.
  intros Hinit Hrow H1 H2 H3.
  destruct (dataset_init_inv _ _ _ _ Hinit) as (_ & _ & _ & Hvoc).
  destruct (iloc_inside _ _ _ _ Hrow) as [Hs Hl].
  unfold CSLMDataset.__getitem__. py_unfold.
  rewrite Hs, Hl, Hvoc. now rewrite vocabulary_miss.
Qed.

Lemma getitem_unknown_label_witness :
  let E := Sample.externals Sample.bytes_tokenizer Sample.scores3 in
  exists self,
    @CSLMDataset.__init__ E "train.csv" (Sample.hp 3 "true") true = Ok self
    /\ CSLMDataset.__getitem__ self 2 = Raise (KeyError (Str "mixed")).
Proof.
  intros E. eexists. split; [reflexivity |].
  apply (@getitem_unknown_label E "train.csv" (Sample.hp 3 "true") true _ 2%nat
           (Str "hmm") (Str "mixed")); [reflexivity | reflexivity | discriminate ..].
Defined.

(** C9, as the code has it.  [iloc] counts a negative index from the end,
    so: an index that is a 64-bit integer and lies at or beyond the size, or
    below minus the size, raises [IndexError]; an index in [-size, 0) reads
    the row [size + index]. *)
Theorem getitem_index_range (self : CSLMDataset.t) (idx : Z) :
  (- 2 ^ 63 <= idx < 2 ^ 63 ->
   Z.of_nat (CSLMDataset.__len__ self) <= idx
   \/ idx < - Z.of_nat (CSLMDataset.__len__ self) ->
   CSLMDataset.__getitem__ self idx = Raise IndexError)
  /\ (- Z.of_nat (CSLMDataset.__len__ self) <= idx < 0 ->
      CSLMDataset.__getitem__ self idx
      = CSLMDataset.__getitem__ self (Z.of_nat (CSLMDataset.__len__ self) + idx)).
Proof.
  unfold CSLMDataset.__len__. split.
  - intros Hint Hi. unfold CSLMDataset.__getitem__. py_unfold.
    now rewrite (iloc_outside _ _ Hi), (in_int64 _ Hint).
  - intros Hi. unfold CSLMDataset.__getitem__, iloc. py_unfold.
    now rewrite (position_from_end _ _ Hi).
Qed.

(** C9 fails as stated: -4 is outside [0, 4), and [__getitem__] returns the
    first row for it; 2^63 is outside [0, 4) too, and the exception is not
    [IndexError]. *)
Lemma getitem_negative_index_returns :
  CSLMDataset.__len__ (Sample.dataset 3 Sample.bytes_tokenizer) = 4%nat
  /\ CSLMDataset.__getitem__ (Sample.dataset 3 Sample.bytes_tokenizer) (-4)
     = CSLMDataset.__getitem__ (Sample.dataset 3 Sample.bytes_tokenizer) 0
  /\ is_ok (CSLMDataset.__getitem__ (Sample.dataset 3 Sample.bytes_tokenizer) (-4)) = true
  /\ CSLMDataset.__getitem__ (Sample.dataset 3 Sample.bytes_tokenizer) (2 ^ 63)
     = Raise OverflowError.
Proof. vm_compute. auto. Qed.

Lemma getitem_index_range_witness :
  CSLMDataset.__getitem__ (Sample.dataset 3 Sample.bytes_tokenizer) 4 = Raise IndexError
  /\ CSLMDataset.__getitem__ (Sample.dataset 3 Sample.bytes_tokenizer) (-5) = Raise IndexError
  /\ CSLMDataset.__getitem__ (Sample.dataset 3 Sample.bytes_tokenizer) (-3)
     = CSLMDataset.__getitem__ (Sample.dataset 3 Sample.bytes_tokenizer) 1.
Proof.
  split; [| split].
  - apply (proj1 (getitem_index_range (Sample.dataset 3 Sample.bytes_tokenizer) 4)).
    + change (2 ^ 63) with 9223372036854775808. lia.
    + left. unfold CSLMDataset.__len__. simpl. lia.
  - apply (proj1 (getitem_index_range (Sample.dataset 3 Sample.bytes_tokenizer) (-5))).
    + change (2 ^ 63) with 9223372036854775808. lia.
    + right. unfold CSLMDataset.__len__. simpl. lia.
  - apply (proj2 (getitem_index_range (Sample.dataset 3 Sample.bytes_tokenizer) (-3))).
    unfold CSLMDataset.__len__. simpl. lia.
Defined.

(** C10. [is_train] is not read: two adapters built from the same file and
    hyperparameters are the same adapter, so they have the same size and
    return the same item (or raise the same exception) at every index. *)
Theorem is_train_irrelevant `{Externals} (path : string) (hp : HParams)
    (is_train1 is_train2 : bool) :
  CSLMDataset.__init__ path hp is_train1 = CSLMDataset.__init__ path hp is_train2
  /\ (self ← CSLMDataset.__init__ path hp is_train1; mret (CSLMDataset.__len__ self))
     = (self ← CSLMDataset.__init__ path hp is_train2; mret (CSLMDataset.__len__ self))
  /\ forall idx : Z,
       (self ← CSLMDataset.__init__ path hp is_train1; CSLMDataset.__getitem__ self idx)
       = (self ← CSLMDataset.__init__ path hp is_train2; CSLMDataset.__getitem__ self idx).
Proof.
  assert (Heq : CSLMDataset.__init__ path hp is_train1
                = CSLMDataset.__init__ path hp is_train2) by reflexivity.
  split; [exact Heq |]. split; [| intros idx]; now rewrite Heq.
Qed.

(** ** One-hot rows and padded encodings *)

Section OneHot.

Lemma length_one_hot_row (k n : nat) : length (one_hot_row k n) = n.
Proof. unfold one_hot_row. now rewrite length_map, length_seq. Qed.

Lemma lookup_one_hot_row (k n j : nat) :
  (j < n)%nat -> one_hot_row k n !! j = Some (if (j =? k)%nat then 1 else 0).
Proof.
  intros Hj. unfold one_hot_row.
  rewrite list_lookup_fmap, lookup_seq_lt by assumption. reflexivity.
Qed.

Lemma one_hot_scalar (k classes : Z) :
  0 <= k < classes ->
  one_hot (scalar_tensor k) classes
  = Ok (mkTensor [Z.to_nat classes] (one_hot_row (Z.to_nat k) (Z.to_nat classes))).
Proof.
  intros Hk. unfold one_hot, scalar_tensor. simpl.
  replace (k <? 0) with false by (symmetry; apply Z.ltb_ge; lia).
  replace (classes =? -1) with false by (symmetry; apply Z.eqb_neq; lia).
  replace (k <? classes) with true by (symmetry; apply Z.ltb_lt; lia).
  simpl. now rewrite app_nil_r.
Qed.

(** Adding float32 zeros to zero or to one changes nothing. *)
Lemma fold_zeros (k start n : nat) (acc : f32) :
  (k < start \/ start + n <= k)%nat ->
  acc = f32_zero \/ acc = f32_one ->
  fold_left f32_add
    (map f32_of_Z (map (fun j => if (j =? k)%nat then 1 else 0) (seq start n))) acc
  = acc.
Proof.
  revert start acc. induction n as [| n IH]; intros start acc Hk Hacc; simpl.
  - reflexivity.
  - destruct (Nat.eqb_spec start k) as [-> | Hne]; [lia |].
    rewrite IH by (try lia; destruct Hacc as [-> | ->]; auto).
    destruct Hacc as [-> | ->]; reflexivity.
Qed.

(** Adding float32 zeros and a single one, from the left, gives one. *)
Lemma fold_one_hot (k start n : nat) :
  (start <= k < start + n)%nat ->
  fold_left f32_add
    (map f32_of_Z (map (fun j => if (j =? k)%nat then 1 else 0) (seq start n))) f32_zero
  = f32_one.
Proof.
  revert start. induction n as [| n IH]; intros start Hk; simpl.
  - lia.
  - destruct (Nat.eqb_spec start k) as [-> | Hne].
    + change (f32_add f32_zero (f32_of_Z 1)) with f32_one.
      apply fold_zeros; [lia | auto].
    + change (f32_add f32_zero (f32_of_Z 0)) with f32_zero.
      apply IH. lia.
Qed.

Lemma sum_one_hot_row (k n : nat) :
  (k < n)%nat -> sum_f32 (map f32_of_Z (one_hot_row k n)) = f32_one.
Proof. intros Hk. apply fold_one_hot. lia. Qed.

End OneHot.

Section Encoding.

Lemma encode_plus_width (tok : Tokenizer) (pad : Z) (s : string) (n : nat) :
  pad_token_id tok = Some pad ->
  (length (special_prefix tok) + length (special_suffix tok) <= n)%nat ->
  exists ids mask,
    encode_plus tok (Str s) n
    = Ok (mkBatchEncoding (mkTensor [1%nat; n] ids) (mkTensor [1%nat; n] mask))
    /\ length ids = n /\ length mask = n.
Proof.
  intros Hpad Hfit. unfold encode_plus. rewrite Hpad.
  set (kept := match truncation_side tok with
               | left_side => _
               | right_side => _
               end).
  set (ids := special_prefix tok ++ kept ++ special_suffix tok).
  assert (Hlen : (length ids <= n)%nat).
  { subst ids kept. rewrite !length_app.
    destruct (truncation_side tok); [rewrite length_drop | rewrite length_take]; lia. }
  replace (length ids + (n - length ids))%nat with n by lia.
  destruct (padding_side tok); (eexists _, _; split; [reflexivity |]);
    rewrite !length_app, !length_replicate; lia.
Qed.

End Encoding.

(** C1, as the code has it.  At an index whose row holds a text and a label
    of the vocabulary with a class index below [num_classes], and with a
    tokenizer that has a padding token and whose special tokens fit in 128
    positions, [__getitem__] returns token ids and an attention mask of
    exactly 128 entries each (128 is the constant of the call), and a
    float32 label vector of [num_classes] entries that holds 1.0 at the
    class index and 0.0 elsewhere, and sums to 1.0. *)
Theorem getitem_encoded_example `{Externals} (path : string) (hp : HParams)
    (is_train : bool) (self : CSLMDataset.t) (i : nat) (s label : string) (k pad : Z) :
  CSLMDataset.__init__ path hp is_train = Ok self ->
  rows (CSLMDataset.data self) !! i = Some (Str s, Str label) ->
  CSLMDataset.labels2num self !! label = Some k ->
  k < num_classes hp ->
  pad_token_id (CSLMDataset.tokenizer self) = Some pad ->
  (length (special_prefix (CSLMDataset.tokenizer self))
   + length (special_suffix (CSLMDataset.tokenizer self)) <= 128)%nat ->
  exists item,
    CSLMDataset.__getitem__ self (Z.of_nat i) = Ok item
    /\ shape (CSLMDataset.input_ids item) = [128%nat]
    /\ length (elems (CSLMDataset.input_ids item)) = 128%nat
    /\ shape (CSLMDataset.attention_mask item) = [128%nat]
    /\ length (elems (CSLMDataset.attention_mask item)) = 128%nat
    /\ shape (CSLMDataset.labels item) = [Z.to_nat (num_classes hp)]
    /\ length (elems (CSLMDataset.labels item)) = Z.to_nat (num_classes hp)
    /\ sum_f32 (elems (CSLMDataset.labels item)) = f32_one
    /\ forall j : nat,
         (j < Z.to_nat (num_classes hp))%nat ->
         elems (CSLMDataset.labels item) !! j
         = Some (if (j =? Z.to_nat k)%nat then f32_one else f32_zero).
Proof.
  intros Hinit Hrow Hlabel Hk Hpad Hfit.
  destruct (dataset_init_inv _ _ _ _ Hinit) as (_ & _ & Hhp & Hvoc).
  destruct (iloc_inside _ _ _ _ Hrow) as [Hs Hl].
  rewrite Hvoc in Hlabel.
  assert (Hk0 : 0 <= k) by (destruct (vocabulary_lookup _ _ Hlabel) as [[_ ->] | [[_ ->] | [_ ->]]]; lia).
  destruct (encode_plus_width _ _ s 128 Hpad Hfit) as (ids & mask & Henc & Hids & Hmask).
  unfold CSLMDataset.__getitem__. py_unfold.
  rewrite Hs, Hl, Hvoc. unfold Py.getitem. rewrite Hlabel, Hhp.
  rewrite one_hot_scalar by lia. rewrite Henc.
  eexists. split; [reflexivity |]. simpl.
  repeat split; try assumption.
  - now rewrite length_map, length_one_hot_row.
  - apply sum_one_hot_row. lia.
  - intros j Hj. rewrite list_lookup_fmap, lookup_one_hot_row by assumption.
    simpl. now destruct (j =? Z.to_nat k)%nat.
Qed.

Lemma getitem_encoded_example_witness :
  let E := Sample.externals Sample.bytes_tokenizer Sample.scores3 in
  exists self item,
    @CSLMDataset.__init__ E "train.csv" (Sample.hp 3 "true") true = Ok self
    /\ CSLMDataset.__getitem__ self 1 = Ok item
    /\ length (elems (CSLMDataset.input_ids item)) = 128%nat
    /\ length (elems (CSLMDataset.attention_mask item)) = 128%nat
    /\ elems (CSLMDataset.labels item) = [f32_zero; f32_zero; f32_one].
Proof.
  intros E.
  destruct (@getitem_encoded_example E "train.csv" (Sample.hp 3 "true") true
              (Sample.dataset 3 Sample.bytes_tokenizer) 1%nat "so so" "neutral" 2 0)
    as (item & Hitem & _ & Hids & _ & Hmask & _ & _ & _ & _);
    [reflexivity | reflexivity | reflexivity | reflexivity | reflexivity | simpl; lia |].
  exists (Sample.dataset 3 Sample.bytes_tokenizer), item.
  split; [reflexivity |]. split; [exact Hitem |]. split; [exact Hids |].
  split; [exact Hmask |].
  assert (Hv : CSLMDataset.__getitem__ (Sample.dataset 3 Sample.bytes_tokenizer) 1
               = Ok item) by exact Hitem.
  vm_compute in Hv. injection Hv as <-. reflexivity.
Defined.

(** C1 fails as stated.  In a frame of four rows, index 2 is valid and its
    label is no class name; index 1 is valid and its class, 2, has no place
    among 2 classes; index 3 is valid and its sentence is a missing value;
    and a tokenizer without a padding token cannot pad. *)
Lemma getitem_valid_index_raises :
  CSLMDataset.__len__ (Sample.dataset 3 Sample.bytes_tokenizer) = 4%nat
  /\ CSLMDataset.__getitem__ (Sample.dataset 3 Sample.bytes_tokenizer) 2
     = Raise (KeyError (Str "mixed"))
  /\ CSLMDataset.__getitem__ (Sample.dataset 2 Sample.bytes_tokenizer) 1
     = Raise RuntimeError
  /\ CSLMDataset.__getitem__ (Sample.dataset 3 Sample.bytes_tokenizer) 3
     = Raise TypeError
  /\ CSLMDataset.__getitem__ (Sample.dataset 3 Sample.unpadded_tokenizer) 0
     = Raise ValueError.
Proof. vm_compute. auto 10. Qed.

(** ** Substrings *)

Section Substrings.

Open Scope string_scope.

Lemma prefix_true (a b : string) :
  String.prefix a b = true <-> exists after, b = a ++ after.
Proof.
  revert b. induction a as [| c a IH]; intros b.
  - split; [intros _; now exists b | intros _; now destruct b].
  - destruct b as [| d b]; simpl.
    + split; [discriminate | intros [after [=]]].
    + destruct (ascii_dec c d) as [-> | Hne].
      * rewrite IH. split; intros [after Hafter]; exists after.
        -- now rewrite Hafter.
        -- now injection Hafter.
      * split; [discriminate | intros [after [= Hcd _]]; congruence].
Qed.

Lemma contains_true (needle hay : string) :
  contains needle hay = true <-> occurs_in needle hay.
Proof.
  induction hay as [| c hay IH].
  - change (contains needle "") with (String.prefix needle "" || false).
    rewrite orb_false_r, prefix_true. split.
    + intros [after ->]. now exists "", after.
    + intros ([| d before] & after & Heq); simpl in Heq; [now exists after | discriminate].
  - change (contains needle (String c hay))
      with (String.prefix needle (String c hay) || contains needle hay).
    rewrite orb_true_iff, prefix_true, IH. split.
    + intros [[after ->] | (before & after & ->)].
      * now exists "", after.
      * now exists (String c before), after.
    + intros ([| d before] & after & Heq); simpl in Heq.
      * left. now exists after.
      * right. injection Heq as -> ->. now exists before, after.
Qed.

Lemma contains_false (needle hay : string) :
  contains needle hay = false <-> ~ occurs_in needle hay.
Proof. rewrite <- contains_true. now destruct (contains needle hay). Qed.

End Substrings.

(** ** The optimizer's parameter groups *)

Section Groups.

Lemma filter_split_perm {A B} (f g : A -> bool) (h : A -> B) (l : list A) :
  (forall x, g x = negb (f x)) ->
  Permutation (map h (List.filter g l) ++ map h (List.filter f l)) (map h l).
Proof.
  intros Hg. induction l as [| x l IH]; simpl; [constructor |].
  rewrite Hg. destruct (f x); simpl.
  - apply Permutation_sym, Permutation_cons_app, Permutation_sym, IH.
  - now constructor.
Qed.

Lemma in_filter_snd {A B} (f : A * B -> bool) (l : list (A * B)) (i : nat) (a : A) (b : B) :
  l !! i = Some (a, b) -> f (a, b) = true -> In b (map snd (List.filter f l)).
Proof.
  intros Hi Hf. apply in_map_iff. exists (a, b). split; [reflexivity |].
  apply filter_In. split; [| assumption].
  apply list_elem_of_In, list_elem_of_lookup. eauto.
Qed.

Lemma any_in_no_decay (name : string) :
  LightningModel.any_in ["bias"; "LayerNorm.weight"]%string name = true
  <-> occurs_in "bias" name \/ occurs_in "LayerNorm.weight" name.
Proof.
  unfold LightningModel.any_in. simpl.
  rewrite orb_false_r, orb_true_iff, !contains_true. reflexivity.
Qed.

End Groups.

(** C3. [configure_optimizers] hands the optimizer two groups: the second
    has weight decay 0.0 and holds every parameter whose name contains
    "bias" or "LayerNorm.weight"; the first has the configured weight decay
    and holds every other parameter.  Together the two groups are the
    parameters of the model, each taken once, so no parameter is missed
    and, the parameters being distinct, none is in both. *)
Theorem configure_optimizers_partition (self : LightningModel.t) :
  exists decayed undecayed opt sched,
    LightningModel.configure_optimizers self = ([opt], [sched])
    /\ LightningModel.param_groups opt = [decayed; undecayed]
    /\ LightningModel.group_weight_decay decayed = weight_decay (LightningModel.config self)
    /\ LightningModel.group_weight_decay undecayed = f64_zero
    /\ Permutation
         (LightningModel.params decayed ++ LightningModel.params undecayed)
         (map snd (named_parameters (LightningModel.model self)))
    /\ (forall (i : nat) (name : string) (p : Param),
          named_parameters (LightningModel.model self) !! i = Some (name, p) ->
          (occurs_in "bias" name \/ occurs_in "LayerNorm.weight" name ->
           In p (LightningModel.params undecayed))
          /\ (~ (occurs_in "bias" name \/ occurs_in "LayerNorm.weight" name) ->
              In p (LightningModel.params decayed)))
    /\ (NoDup (map snd (named_parameters (LightningModel.model self))) ->
        forall p : Param,
          In p (LightningModel.params decayed) ->
          In p (LightningModel.params undecayed) -> False).
Proof.
  unfold LightningModel.configure_optimizers.
  eexists _, _, _, _. split; [reflexivity |]. simpl.
  split; [reflexivity |]. split; [reflexivity |]. split; [reflexivity |].
  assert (Hperm := filter_split_perm
            (fun '(n, _) => LightningModel.any_in ["bias"; "LayerNorm.weight"]%string n)
            (fun '(n, _) => negb (LightningModel.any_in ["bias"; "LayerNorm.weight"]%string n))
            (@snd string Param)
            (named_parameters (LightningModel.model self))
            (fun '(n, _) => eq_refl)).
  split; [exact Hperm |]. split.
  - intros i name p Hi. split; intros Hname.
    + apply (in_filter_snd _ _ i name p Hi). now apply any_in_no_decay.
    + apply (in_filter_snd _ _ i name p Hi). cbv beta iota.
      apply negb_true_iff, not_true_is_false.
      intros Hany. now apply Hname, any_in_no_decay.
  - intros Hnodup p Hd Hu.
    rewrite <- Hperm in Hnodup.
    apply NoDup_app in Hnodup as (_ & Hdisj & _).
    apply (Hdisj p); now apply list_elem_of_In.
Qed.

Lemma configure_optimizers_partition_witness :
  exists opt sched decayed undecayed,
    LightningModel.configure_optimizers Sample.lightning = ([opt], [sched])
    /\ LightningModel.param_groups opt = [decayed; undecayed]
    /\ In (mkParam 2 true) (LightningModel.params undecayed)
    /\ In (mkParam 3 true) (LightningModel.params decayed)
    /\ (In (mkParam 3 true) (LightningModel.params undecayed) -> False).
Proof.
  destruct (configure_optimizers_partition Sample.lightning)
    as (decayed & undecayed & opt & sched & Heq & Hgroups & _ & _ & _ & Hmem & Hdisj).
  exists opt, sched, decayed, undecayed.
  split; [exact Heq |]. split; [exact Hgroups |].
  assert (Hbias : In (mkParam 2 true) (LightningModel.params undecayed)).
  { apply (Hmem 2%nat "bert.embeddings.LayerNorm.bias"%string (mkParam 2 true) eq_refl).
    left. now apply contains_true. }
  assert (Hweight : In (mkParam 3 true) (LightningModel.params decayed)).
  { apply (Hmem 3%nat "bert.encoder.layer.0.attention.self.query.weight"%string
             (mkParam 3 true) eq_refl).
    intros [Hin | Hin]; apply contains_true in Hin; discriminate. }
  split; [exact Hbias |]. split; [exact Hweight |].
  assert (Hdistinct : NoDup (map snd (named_parameters
                                        (LightningModel.model Sample.lightning)))).
  { simpl.
    repeat (apply NoDup_cons; split;
            [by (intros ?%list_elem_of_In; simpl in *; intuition discriminate) |]).
    apply NoDup_nil_2. }
  intros Hboth. apply (Hdisj Hdistinct _ Hweight Hboth).
Defined.

(** ** Construction of the training module *)

Section Construction.

Context `{Externals}.

Import Torchmetrics.

Lemma module_init_inv (config : HParams) (self : LightningModel.t) :
  LightningModel.__init__ config = Ok self ->
  exists ac loaded,
    auto_config_from_pretrained (upstream_model config) (num_classes config) = Ok ac
    /\ model_from_pretrained (upstream_model config) ac = Ok loaded
    /\ self = LightningModel.mk config ac
                (if String.eqb (freeze config) "true"
                 then LightningModel.freeze_encoder loaded else loaded)
                (mkAccuracy (if num_classes config =? 2 then binary else multiclass)
                            (num_classes config))
                [].
Proof.
  unfold LightningModel.__init__, new_accuracy. py_unfold.
  destruct (auto_config_from_pretrained _ _) as [ac |]; [| discriminate].
  destruct (model_from_pretrained _ ac) as [loaded |] eqn:Hloaded; [| discriminate].
  destruct (num_classes config =? 2).
  - intros [= <-]. exists ac, loaded. repeat split. exact Hloaded.
  - destruct (num_classes config <? 2); [discriminate |].
    intros [= <-]. exists ac, loaded. repeat split. exact Hloaded.
Qed.

(** The metric's constructor lets [__init__] return only with at least 2
    classes. *)
Lemma module_init_classes (config : HParams) (self : LightningModel.t) :
  LightningModel.__init__ config = Ok self -> 2 <= num_classes config.
Proof.
  unfold LightningModel.__init__, new_accuracy. py_unfold.
  destruct (auto_config_from_pretrained _ _) as [ac |]; [| discriminate].
  destruct (model_from_pretrained _ ac) as [loaded |]; [| discriminate].
  destruct (Z.eqb_spec (num_classes config) 2); [lia |].
  destruct (Z.ltb_spec (num_classes config) 2); [discriminate | lia].
Qed.

Lemma freeze_encoder_lookup (m : Network) (i : nat) (name : string) (p0 : Param) :
  named_parameters m !! i = Some (name, p0) ->
  named_parameters (LightningModel.freeze_encoder m) !! i
  = Some (name, if contains "classifier" name then p0 else mkParam (param_id p0) false).
Proof.
  intros Hi. unfold LightningModel.freeze_encoder. simpl.
  rewrite list_lookup_fmap, Hi. simpl.
  now destruct (contains "classifier" name).
Qed.

Lemma epoch_end_keeps_model (self self' : LightningModel.t)
    (outputs : list (gmap string f32)) :
  LightningModel.training_epoch_end self outputs = Ok self'
  \/ LightningModel.validation_epoch_end self outputs = Ok self'
  \/ LightningModel.test_epoch_end self outputs = Ok self' ->
  LightningModel.model self' = LightningModel.model self.
Proof.
  unfold LightningModel.training_epoch_end, LightningModel.validation_epoch_end,
    LightningModel.test_epoch_end.
  py_unfold.
  intros [Hend | [Hend | Hend]];
    repeat match type of Hend with
           | context [comprehension ?f ?l] => destruct (comprehension f l)
           end;
    try discriminate; now injection Hend as <-.
Qed.

End Construction.

(** C4. With [freeze] set to "true", the module that [__init__] returns
    has the parameters of the loaded network, in the same order and under
    the same names; a parameter whose name does not contain "classifier"
    has [requires_grad] false, and one whose name contains it keeps the
    [requires_grad] it was loaded with, so an updatable classifier stays
    updatable.  The loop runs in [__init__] only: the epoch-end hooks, the
    only methods that return the module, leave the network as it is. *)
Theorem freeze_at_construction `{Externals} (config : HParams) (self : LightningModel.t) :
  freeze config = "true"%string ->
  LightningModel.__init__ config = Ok self ->
  exists ac loaded,
    auto_config_from_pretrained (upstream_model config) (num_classes config) = Ok ac
    /\ model_from_pretrained (upstream_model config) ac = Ok loaded
    /\ length (named_parameters (LightningModel.model self))
       = length (named_parameters loaded)
    /\ (forall (i : nat) (name : string) (p0 : Param),
          named_parameters loaded !! i = Some (name, p0) ->
          exists p,
            named_parameters (LightningModel.model self) !! i = Some (name, p)
            /\ param_id p = param_id p0
            /\ (~ occurs_in "classifier" name -> requires_grad p = false)
            /\ (occurs_in "classifier" name -> requires_grad p = requires_grad p0))
    /\ (forall (outputs : list (gmap string f32)) (self' : LightningModel.t),
          LightningModel.training_epoch_end self outputs = Ok self'
          \/ LightningModel.validation_epoch_end self outputs = Ok self'
          \/ LightningModel.test_epoch_end self outputs = Ok self' ->
          LightningModel.model self' = LightningModel.model self).
Proof.
  intros Hfreeze Hinit.
  destruct (module_init_inv _ _ Hinit) as (ac & loaded & Hac & Hloaded & ->).
  exists ac, loaded. rewrite Hfreeze. simpl.
  split; [exact Hac |]. split; [exact Hloaded |]. split; [| split].
  - now rewrite length_map.
  - intros i name p0 Hi.
    pose proof (freeze_encoder_lookup loaded i name p0 Hi) as Hfrozen.
    eexists. split; [exact Hfrozen |].
    destruct (contains "classifier" name) eqn:Hc; simpl.
    + apply contains_true in Hc. repeat split; auto. intros Hn. contradiction.
    + apply contains_false in Hc. repeat split; auto. intros Hn. contradiction.
  - intros outputs self' Hend. apply (epoch_end_keeps_model _ _ _ Hend).
Qed.

Lemma freeze_at_construction_witness :
  let E := Sample.externals Sample.bytes_tokenizer Sample.scores3 in
  exists self p q,
    @LightningModel.__init__ E (Sample.hp 3 "true") = Ok self
    /\ named_parameters (LightningModel.model self) !! 4%nat
       = Some ("bert.encoder.layer.0.attention.self.query.bias"%string, p)
    /\ requires_grad p = false
    /\ named_parameters (LightningModel.model self) !! 8%nat
       = Some ("classifier.bias"%string, q)
    /\ requires_grad q = true.
Proof.
  intros E.
  destruct (@LightningModel.__init__ E (Sample.hp 3 "true")) as [self |] eqn:Hinit;
    [| discriminate ].
  destruct (@freeze_at_construction E (Sample.hp 3 "true") self eq_refl Hinit)
    as (ac & loaded & _ & Hloaded & _ & Hparams & _).
  injection Hloaded as <-.
  destruct (Hparams 4%nat _ _ eq_refl) as (p & Hp & _ & Hfrozen & _).
  destruct (Hparams 8%nat _ _ eq_refl) as (q & Hq & _ & _ & Hkept).
  exists self, p, q. split; [reflexivity |].
  split; [exact Hp |]. split; [| split; [exact Hq |]].
  - apply Hfrozen. now apply contains_false.
  - rewrite Hkept; [reflexivity |]. now apply contains_true.
Defined.

(** ** The steps of the three phases *)

(** C8. The training, validation and test steps are one computation, the
    per-phase step of the contract, returned under the keys of the phase:
    on the same module and batch they return the same loss and the same
    accuracy, or raise the same exception, whatever the batch and loader
    indices. *)
Theorem steps_identical `{Externals} (self : LightningModel.t)
    (batch : LightningModel.Batch) (i1 i2 d2 i3 d3 : Z) :
  LightningModel.training_step self batch i1
  = Contract.keyed "loss" "acc" (Contract.per_phase_step self batch)
  /\ LightningModel.validation_step self batch i2 d2
     = Contract.keyed "val_loss" "val_acc" (Contract.per_phase_step self batch)
  /\ LightningModel.test_step self batch i3 d3
     = Contract.keyed "test_loss" "test_acc" (Contract.per_phase_step self batch)
  /\ Contract.scalars "loss" "acc" (LightningModel.training_step self batch i1)
     = (pair ← Contract.per_phase_step self batch; mret (Some (fst pair), Some (snd pair)))
  /\ Contract.scalars "val_loss" "val_acc" (LightningModel.validation_step self batch i2 d2)
     = Contract.scalars "loss" "acc" (LightningModel.training_step self batch i1)
  /\ Contract.scalars "test_loss" "test_acc" (LightningModel.test_step self batch i3 d3)
     = Contract.scalars "loss" "acc" (LightningModel.training_step self batch i1).
Proof.
  unfold LightningModel.training_step, LightningModel.validation_step,
    LightningModel.test_step, LightningModel.forward,
    Contract.keyed, Contract.scalars, Contract.per_phase_step.
  py_unfold.
  destruct (logits_of _ _ _) as [logits |]; [| repeat split].
  destruct (view_rows logits _) as [preds |]; [| repeat split].
  destruct (argmax_dim1 _) as [target |]; [| repeat split].
  destruct (Torchmetrics.forward _ preds target) as [acc |]; [| repeat split].
  destruct (cross_entropy preds _) as [loss |]; [| repeat split].
  simpl. repeat split.
Qed.

(** ** Epoch aggregation *)

Section Epochs.

(** Reading one key out of every output of a pass. *)
Lemma comprehension_key {R} (key : string) (dict : R -> gmap string f32)
    (field : R -> f32) (results : list R) :
  (forall r, dict r !! key = Some (field r)) ->
  comprehension (fun x => Py.getitem x (Str key)) (map dict results)
  = Ok (map field results).
Proof.
  intros Hkey. induction results as [| r results IH]; [reflexivity |].
  cbn [map comprehension]. rewrite IH.
  unfold Py.getitem. rewrite Hkey. reflexivity.
Qed.

Lemma lookup_first (k1 k2 : string) (v1 v2 : f32) :
  ({[ k1 := v1; k2 := v2 ]} : gmap string f32) !! k1 = Some v1.
Proof. apply lookup_insert_eq. Qed.

Lemma lookup_second (k1 k2 : string) (v1 v2 : f32) :
  k1 <> k2 -> ({[ k1 := v1; k2 := v2 ]} : gmap string f32) !! k2 = Some v2.
Proof. intros Hne. rewrite lookup_insert_ne by assumption. apply lookup_singleton_eq. Qed.

(** A reduction that takes no entry is 0.0. *)
Lemma reduce_no_entry (a : additions) (xs : list f32) :
  entries a = [] -> reduce a xs = f32_zero.
Proof.
  induction a as [| i | l IHl r IHr]; simpl; intros Hnil.
  - reflexivity.
  - discriminate.
  - apply app_eq_nil in Hnil as [Hl Hr]. now rewrite IHl, IHr.
Qed.

(** The mean of no value is NaN, whatever the kernel. *)
Lemma mean_empty `{Externals} : mean sum_order (tensor_of_list []) = S754_nan.
Proof.
  unfold mean. cbn [elems tensor_of_list length].
  rewrite reduce_no_entry; [reflexivity |].
  apply Permutation_nil_r. exact (sum_order_entries 0).
Qed.

(** Whether a reduction takes position [i]. *)
Lemma takes_app (i : nat) (l r : list nat) :
  existsb (Nat.eqb i) (l ++ r) = existsb (Nat.eqb i) l || existsb (Nat.eqb i) r.
Proof. apply existsb_app. Qed.

Lemma takes_in (i : nat) (l : list nat) : existsb (Nat.eqb i) l = true <-> i ∈ l.
Proof.
  rewrite existsb_exists. split.
  - intros (j & Hj & Heq). apply Nat.eqb_eq in Heq as ->. now apply list_elem_of_In.
  - intros Hi. exists i. split; [now apply list_elem_of_In | apply Nat.eqb_refl].
Qed.

(** Over the float32 values nearest to 0.2, 0.4 and 0.6, the value of a
    reduction depends only on which entries it takes: the additions can be
    made in any order. *)
Lemma reduce_example (a : additions) :
  NoDup (entries a) ->
  (forall i, i ∈ entries a -> (i < 3)%nat) ->
  reduce a [Sample.f32_0_2; Sample.f32_0_4; Sample.f32_0_6]
  = match existsb (Nat.eqb 0) (entries a), existsb (Nat.eqb 1) (entries a),
          existsb (Nat.eqb 2) (entries a) with
    | false, false, false => f32_zero
    | true, false, false => Sample.f32_0_2
    | false, true, false => Sample.f32_0_4
    | false, false, true => Sample.f32_0_6
    | true, true, false => f32_add Sample.f32_0_2 Sample.f32_0_4
    | true, false, true => f32_add Sample.f32_0_2 Sample.f32_0_6
    | false, true, true => f32_add Sample.f32_0_4 Sample.f32_0_6
    | true, true, true => S754_finite false 10066330 (-23)
    end.
Proof.
  induction a as [| i | l IHl r IHr]; intros Hnodup Hbound.
  - reflexivity.
  - assert (Hi : (i < 3)%nat) by (apply Hbound; simpl; now left).
    destruct i as [| [| [| i]]]; [reflexivity .. | lia].
  - cbn [entries reduce] in *.
    apply NoDup_app in Hnodup as (Hl & Hdisj & Hr).
    rewrite IHl, IHr by (try assumption; intros i Hi; apply Hbound, elem_of_app; auto).
    rewrite !takes_app.
    assert (Hone : forall i, existsb (Nat.eqb i) (entries l) = true ->
                             existsb (Nat.eqb i) (entries r) = true -> False).
    { intros i Hil Hir. apply takes_in in Hil, Hir. now apply (Hdisj i). }
    pose proof (Hone 0%nat) as H0. pose proof (Hone 1%nat) as H1.
    pose proof (Hone 2%nat) as H2. clear Hone IHl IHr.
    destruct (existsb (Nat.eqb 0) (entries l)), (existsb (Nat.eqb 0) (entries r));
      try (exfalso; now apply H0);
      destruct (existsb (Nat.eqb 1) (entries l)), (existsb (Nat.eqb 1) (entries r));
      try (exfalso; now apply H1);
      destruct (existsb (Nat.eqb 2) (entries l)), (existsb (Nat.eqb 2) (entries r));
      try (exfalso; now apply H2);
      reflexivity.
Qed.

Lemma mean_example `{Externals} :
  mean sum_order (tensor_of_list [Sample.f32_0_2; Sample.f32_0_4; Sample.f32_0_6])
  = Sample.f32_0_4.
Proof.
  unfold mean. cbn [elems tensor_of_list length].
  pose proof (sum_order_entries 3) as Hperm.
  rewrite reduce_example.
  - assert (Hall : forall i, (i < 3)%nat -> existsb (Nat.eqb i) (entries (sum_order 3)) = true).
    { intros i Hi. apply takes_in. rewrite Hperm. apply list_elem_of_In, in_seq. lia. }
    rewrite (Hall 0%nat), (Hall 1%nat), (Hall 2%nat) by lia. reflexivity.
  - rewrite Hperm. apply NoDup_ListNoDup, seq_NoDup.
  - intros i Hi. rewrite Hperm in Hi. apply list_elem_of_In, in_seq in Hi. lia.
Qed.

End Epochs.

(** C5. Given the outputs of one pass, each the dict its phase's step
    returns for a (loss, accuracy) pair, the epoch-end hook of the phase
    logs two values and nothing else: the mean of the losses under
    "<phase>/loss", then the mean of the accuracies under "<phase>/acc", each
    mean taken over its own field.  The mean is the arithmetic mean in
    float32: the sum of the values, every value taken once and added in the
    order of the kernel, divided by their count.  For the losses 0.2, 0.4,
    0.6 the mean is 0.4, whatever the order of the additions. *)
Theorem epoch_end_logs_means `{Externals} (self : LightningModel.t)
    (results : list (f32 * f32)) :
  LightningModel.training_epoch_end self
    (map (fun r => {[ "loss" := fst r; "acc" := snd r ]}) results)
  = Ok (LightningModel.mk
          (LightningModel.config self) (LightningModel.auto_config self)
          (LightningModel.model self) (LightningModel.accuracy self)
          (LightningModel.logged self
           ++ [ LightningModel.mkLogEntry "train/loss"
                  (mean sum_order (tensor_of_list (map fst results))) false true true;
                LightningModel.mkLogEntry "train/acc"
                  (mean sum_order (tensor_of_list (map snd results))) false true true ]))
  /\ LightningModel.validation_epoch_end self
       (map (fun r => {[ "val_loss" := fst r; "val_acc" := snd r ]}) results)
     = Ok (LightningModel.mk
             (LightningModel.config self) (LightningModel.auto_config self)
             (LightningModel.model self) (LightningModel.accuracy self)
             (LightningModel.logged self
              ++ [ LightningModel.mkLogEntry "val/loss"
                     (mean sum_order (tensor_of_list (map fst results))) false true true;
                   LightningModel.mkLogEntry "val/acc"
                     (mean sum_order (tensor_of_list (map snd results))) false true true ]))
  /\ LightningModel.test_epoch_end self
       (map (fun r => {[ "test_loss" := fst r; "test_acc" := snd r ]}) results)
     = Ok (LightningModel.mk
             (LightningModel.config self) (LightningModel.auto_config self)
             (LightningModel.model self) (LightningModel.accuracy self)
             (LightningModel.logged self
              ++ [ LightningModel.mkLogEntry "test/loss"
                     (mean sum_order (tensor_of_list (map fst results))) false true true;
                   LightningModel.mkLogEntry "test/acc"
                     (mean sum_order (tensor_of_list (map snd results))) false true true ]))
  /\ (forall xs : list f32,
        mean sum_order (tensor_of_list xs)
        = f32_div (reduce (sum_order (length xs)) xs) (f32_of_Z (Z.of_nat (length xs)))
        /\ Permutation (entries (sum_order (length xs))) (seq 0 (length xs)))
  /\ mean sum_order (tensor_of_list [Sample.f32_0_2; Sample.f32_0_4; Sample.f32_0_6])
     = Sample.f32_0_4.
Proof.
  unfold LightningModel.training_epoch_end, LightningModel.validation_epoch_end,
    LightningModel.test_epoch_end, LightningModel.log.
  py_unfold.
  rewrite (comprehension_key "loss" _ fst), (comprehension_key "val_loss" _ fst),
    (comprehension_key "test_loss" _ fst) by (intros r; apply lookup_first).
  rewrite (comprehension_key "acc" _ snd), (comprehension_key "val_acc" _ snd),
    (comprehension_key "test_acc" _ snd) by (intros r; now apply lookup_second).
  cbn [LightningModel.config LightningModel.auto_config LightningModel.model
       LightningModel.accuracy LightningModel.logged].
  rewrite <- !app_assoc. cbn [app].
  split; [reflexivity |]. split; [reflexivity |]. split; [reflexivity |]. split.
  - intros xs. split; [reflexivity | apply sum_order_entries].
  - apply mean_example.
Qed.

(** ** The optimizer and the schedule *)

Section Schedule.

Context `{Externals}.

Import Schedules.

(** [math.pi * 0.5 * 2.0] is [math.pi]: the schedule runs over half a
    period of the cosine. *)
Lemma half_period : f64_mul (f64_mul f64_pi f64_half) (f64_of_Z 2) = f64_pi.
Proof. reflexivity. Qed.

(** [float(z)], when it returns, is the double nearest to [z]. *)
Lemma float_of_int_ok (z : Z) (x : f64) : float_of_int z = Ok x -> x = f64_of_Z z.
Proof.
  unfold float_of_int. destruct (f64_of_Z z); intros Hx; congruence.
Qed.

Lemma lr_lambda_warmup (training step : Z) :
  0 <= step < 5 ->
  lr_lambda (get_cosine_schedule_with_warmup 5 training) step
  = Ok (f64_div (f64_of_Z step) (f64_of_Z 5)).
Proof.
  intros Hstep.
  assert (Hcases : step = 0 \/ step = 1 \/ step = 2 \/ step = 3 \/ step = 4) by lia.
  destruct Hcases as [-> | [-> | [-> | [-> | ->]]]]; reflexivity.
Qed.

Lemma lr_lambda_cosine (training step : Z) (x y : f64) :
  5 <= step ->
  float_of_int (step - 5) = Ok x ->
  float_of_int (Z.max 1 (training - 5)) = Ok y ->
  lr_lambda (get_cosine_schedule_with_warmup 5 training) step
  = Ok (f64_max f64_zero
          (f64_mul f64_half
             (f64_add (f64_of_Z 1) (math_cos (f64_mul f64_pi (f64_div x y)))))).
Proof.
  intros Hstep Hx Hy. unfold lr_lambda, get_cosine_schedule_with_warmup.
  cbn [kind num_warmup_steps num_training_steps num_cycles].
  replace (step <? 5) with false by (symmetry; apply Z.ltb_ge; lia).
  rewrite Hx, Hy. py_unfold. now rewrite half_period.
Qed.

End Schedule.

Section OptimizerGroups.

Lemma in_group (f : string -> bool) (l : list (string * Param)) (p : Param) :
  In p (map snd (List.filter (fun '(n, _) => f n) l))
  <-> exists name, In (name, p) l /\ f name = true.
Proof.
  rewrite in_map_iff. split.
  - intros ([name q] & Hq & Hin). simpl in Hq. subst q.
    apply filter_In in Hin as [Hin Hf]. eauto.
  - intros (name & Hin & Hf). exists (name, p). split; [reflexivity |].
    apply filter_In. auto.
Qed.

End OptimizerGroups.

(** C7. [configure_optimizers] returns one optimizer and one schedule.  The
    optimizer is AdamW, with the configured learning rate and eps 1e-8 (the
    double nearest to 10^-8), over two groups: the first, with the
    configured weight decay, holds the parameters whose name contains
    neither "bias" nor "LayerNorm.weight"; the second, with weight decay
    0.0, holds those whose name contains one of them; together they are
    the parameters of the model, each taken once.  The schedule is the
    cosine schedule with warm-up, declared with interval "step", with 5
    warm-up steps and as many training steps as the configured epochs: its
    factor is step/5 over the steps 0 to 4, and from step 5 on it is
    max(0, 0.5 * (1 + cos(pi * (step - 5) / max(1, epochs - 5)))), the two
    counts taken as doubles. *)
Theorem configure_optimizers_adamw_cosine `{Externals} (self : LightningModel.t) :
  exists opt sched decayed undecayed,
    LightningModel.configure_optimizers self = ([opt], [sched])
    /\ LightningModel.optimizer_class opt = LightningModel.AdamW
    /\ LightningModel.param_groups opt = [decayed; undecayed]
    /\ LightningModel.group_weight_decay decayed = weight_decay (LightningModel.config self)
    /\ LightningModel.group_weight_decay undecayed = f64_zero
    /\ Permutation
         (LightningModel.params decayed ++ LightningModel.params undecayed)
         (map snd (named_parameters (LightningModel.model self)))
    /\ (forall p : Param,
          In p (LightningModel.params undecayed)
          <-> exists name,
                In (name, p) (named_parameters (LightningModel.model self))
                /\ (occurs_in "bias" name \/ occurs_in "LayerNorm.weight" name))
    /\ (forall p : Param,
          In p (LightningModel.params decayed)
          <-> exists name,
                In (name, p) (named_parameters (LightningModel.model self))
                /\ ~ (occurs_in "bias" name \/ occurs_in "LayerNorm.weight" name))
    /\ LightningModel.optimizer_lr opt = lr (LightningModel.config self)
    /\ LightningModel.optimizer_eps opt = f64_1e_8
    /\ f64_1e_8 = f64_div (f64_of_Z 1) (f64_of_Z 100000000)
    /\ LightningModel.interval sched = "step"%string
    /\ Schedules.kind (LightningModel.scheduler sched) = Schedules.cosine_with_warmup
    /\ Schedules.num_warmup_steps (LightningModel.scheduler sched) = 5
    /\ Schedules.num_training_steps (LightningModel.scheduler sched)
       = epochs (LightningModel.config self)
    /\ (forall step : Z,
          0 <= step < 5 ->
          Schedules.lr_lambda (LightningModel.scheduler sched) step
          = Ok (f64_div (f64_of_Z step) (f64_of_Z 5)))
    /\ (forall (step : Z) (x y : f64),
          5 <= step ->
          float_of_int (step - 5) = Ok x ->
          float_of_int (Z.max 1 (epochs (LightningModel.config self) - 5)) = Ok y ->
          x = f64_of_Z (step - 5)
          /\ y = f64_of_Z (Z.max 1 (epochs (LightningModel.config self) - 5))
          /\ Schedules.lr_lambda (LightningModel.scheduler sched) step
             = Ok (f64_max f64_zero
                     (f64_mul f64_half
                        (f64_add (f64_of_Z 1)
                           (math_cos (f64_mul f64_pi (f64_div x y))))))).
Proof.
  unfold LightningModel.configure_optimizers.
  eexists _, _, _, _. split; [reflexivity |].
  cbn [LightningModel.optimizer_class LightningModel.param_groups
       LightningModel.optimizer_lr LightningModel.optimizer_eps
       LightningModel.group_weight_decay LightningModel.params
       LightningModel.interval LightningModel.scheduler].
  split; [reflexivity |]. split; [reflexivity |]. split; [reflexivity |].
  split; [reflexivity |]. split.
  { exact (filter_split_perm
             (fun '(n, _) => LightningModel.any_in ["bias"; "LayerNorm.weight"]%string n)
             (fun '(n, _) => negb (LightningModel.any_in ["bias"; "LayerNorm.weight"]%string n))
             (@snd string Param)
             (named_parameters (LightningModel.model self))
             (fun '(n, _) => eq_refl)). }
  split.
  { intros p.
    etransitivity;
      [exact (in_group (LightningModel.any_in ["bias"; "LayerNorm.weight"]%string)
                (named_parameters (LightningModel.model self)) p) |].
    split; intros (name & Hin & Hname); exists name; (split; [exact Hin |]);
      now apply any_in_no_decay. }
  split.
  { intros p.
    etransitivity;
      [exact (in_group
                (fun n => negb (LightningModel.any_in ["bias"; "LayerNorm.weight"]%string n))
                (named_parameters (LightningModel.model self)) p) |].
    split; intros (name & Hin & Hname); exists name; (split; [exact Hin |]).
    - apply negb_true_iff in Hname. intros Hany. apply any_in_no_decay in Hany. congruence.
    - apply negb_true_iff, not_true_is_false. intros Hany. now apply Hname, any_in_no_decay. }
  split; [reflexivity |]. split; [reflexivity |]. split; [reflexivity |].
  split; [reflexivity |]. split; [reflexivity |]. split; [reflexivity |].
  split; [reflexivity |]. split.
  - intros step Hstep. now apply lr_lambda_warmup.
  - intros step x y Hstep Hx Hy.
    split; [now apply float_of_int_ok |]. split; [now apply float_of_int_ok |].
    now apply lr_lambda_cosine.
Qed.

Lemma configure_optimizers_adamw_cosine_witness :
  exists opt sched,
    LightningModel.configure_optimizers Sample.lightning = ([opt], [sched])
    /\ LightningModel.optimizer_class opt = LightningModel.AdamW
    /\ Schedules.kind (LightningModel.scheduler sched) = Schedules.cosine_with_warmup
    /\ @Schedules.lr_lambda (Sample.externals Sample.bytes_tokenizer Sample.scores3)
         (LightningModel.scheduler sched) 2
       = Ok (f64_div (f64_of_Z 2) (f64_of_Z 5))
    /\ @Schedules.lr_lambda (Sample.externals Sample.bytes_tokenizer Sample.scores3)
         (LightningModel.scheduler sched) 7
       = Ok (f64_max f64_zero
               (f64_mul f64_half
                  (f64_add (f64_of_Z 1)
                     (f64_mul f64_pi (f64_div (f64_of_Z 2) (f64_of_Z 5)))))).
Proof.
  destruct (@configure_optimizers_adamw_cosine
              (Sample.externals Sample.bytes_tokenizer Sample.scores3) Sample.lightning)
    as (opt & sched & decayed & undecayed & Heq & Hclass & _ & _ & _ & _ & _ & _ & _ & _
        & _ & _ & Hkind & _ & _ & Hwarm & Hcos).
  exists opt, sched.
  split; [exact Heq |]. split; [exact Hclass |]. split; [exact Hkind |]. split.
  - apply Hwarm. lia.
  - destruct (Hcos 7 (f64_of_Z 2) (f64_of_Z 5)) as (_ & _ & Hval);
      [lia | reflexivity | reflexivity |]. exact Hval.
Defined.

(** ** Accuracy of a step *)

Section Accuracy.

Import Torchmetrics.

Lemma lane_row (xs : list f32) (c i : nat) :
  ((i + 1) * c <= length xs)%nat ->
  lane f32_zero xs c 1 i 0 = Contract.row xs c i.
Proof.
  intros Hlen. unfold lane, Contract.row.
  apply list_eq. intros j.
  rewrite list_lookup_fmap.
  destruct (decide (j < c)%nat) as [Hj | Hj].
  - rewrite lookup_seq_lt by assumption. simpl.
    rewrite lookup_take_lt, lookup_drop by assumption.
    replace ((i * c + j) * 1 + 0)%nat with (i * c + j)%nat by lia.
    assert (Hin : (i * c + j < length xs)%nat) by lia.
    destruct (lookup_lt_is_Some_2 xs _ Hin) as [x Hx].
    rewrite Hx. f_equal. now apply nth_lookup_Some with (d := f32_zero) in Hx.
  - rewrite lookup_seq_ge by lia. simpl.
    symmetry. apply lookup_ge_None. rewrite length_take. lia.
Qed.

Lemma length_row (xs : list f32) (c i : nat) :
  ((i + 1) * c <= length xs)%nat -> length (Contract.row xs c i) = c.
Proof.
  intros Hlen. unfold Contract.row. rewrite length_take, length_drop. lia.
Qed.

Lemma predicted_classes_rows (t : tensor f32) (n c : nat) :
  length (elems t) = (n * c)%nat ->
  predicted_classes t n c = Contract.row_argmax (elems t) n c.
Proof.
  intros Hlen. unfold predicted_classes, Contract.row_argmax.
  apply map_ext_in. intros i Hi. apply in_seq in Hi.
  rewrite lane_row; [reflexivity |]. rewrite Hlen. nia.
Qed.

Lemma argmax_dim1_rows (t : tensor f32) (n c : nat) :
  shape t = [n; c] -> (0 < c)%nat -> length (elems t) = (n * c)%nat ->
  argmax_dim1 t = Ok (mkTensor [n] (Contract.row_argmax (elems t) n c)).
Proof.
  intros Hshape Hc Hlen. unfold argmax_dim1. rewrite Hshape.
  destruct (Nat.eqb_spec c 0) as [-> | _]; [lia |].
  f_equal. f_equal. unfold Contract.row_argmax. simpl.
  assert (Hrows : forall i, In i (seq 0 n) -> ((i + 1) * c <= length (elems t))%nat).
  { intros i Hi. apply in_seq in Hi. rewrite Hlen. nia. }
  induction (seq 0 n) as [| i l IH]; simpl; [reflexivity |].
  rewrite lane_row by (apply Hrows; now left).
  f_equal. apply IH. intros j Hj. apply Hrows. now right.
Qed.

Lemma length_row_argmax (xs : list f32) (n c : nat) :
  length (Contract.row_argmax xs n c) = n.
Proof. unfold Contract.row_argmax. now rewrite length_map, length_seq. Qed.

Lemma argmax_from_bound (xs : list f32) (best : f32) (besti i : nat) :
  (besti < i)%nat -> (argmax_from best besti i xs < i + length xs)%nat.
Proof.
  revert best besti i. induction xs as [| x xs IH]; intros best besti i Hlt; simpl.
  - lia.
  - destruct (greater_or_nan x i best besti).
    + specialize (IH x i (S i)). lia.
    + specialize (IH best besti (S i)). lia.
Qed.

Lemma argmax_list_bound (xs : list f32) :
  (0 < length xs)%nat -> (argmax_list xs < length xs)%nat.
Proof.
  destruct xs as [| x xs]; simpl; [lia |]. intros _.
  pose proof (argmax_from_bound xs x 0 1). lia.
Qed.

Lemma row_argmax_bound (xs : list f32) (n c : nat) (x : Z) :
  (0 < c)%nat -> (n * c <= length xs)%nat ->
  x ∈ Contract.row_argmax xs n c -> 0 <= x < Z.of_nat c.
Proof.
  intros Hc Hlen Hx. unfold Contract.row_argmax in Hx.
  apply list_elem_of_fmap in Hx as (i & -> & Hi).
  apply list_elem_of_In, in_seq in Hi.
  assert (Hrow : length (Contract.row xs c i) = c) by (apply length_row; nia).
  pose proof (argmax_list_bound (Contract.row xs c i)). lia.
Qed.

(** Class indices below [c] show at most [c] distinct values. *)
Lemma distinct_bound (l : list Z) (c : nat) :
  (forall x, x ∈ l -> 0 <= x < Z.of_nat c) ->
  (length (remove_dups l) <= c)%nat.
Proof.
  intros Hl.
  assert (Hsub : remove_dups l ⊆+ map Z.of_nat (seq 0 c)).
  { apply NoDup_submseteq; [apply NoDup_remove_dups |].
    intros x Hx. apply elem_of_remove_dups, Hl in Hx.
    apply list_elem_of_fmap. exists (Z.to_nat x). split; [lia |].
    apply list_elem_of_In, in_seq. lia. }
  apply submseteq_length in Hsub. now rewrite length_map, length_seq in Hsub.
Qed.

Lemma count_equal_bound (xs ys : list Z) :
  0 <= count_equal xs ys <= Z.of_nat (length xs).
Proof.
  revert ys. induction xs as [| x xs IH]; intros ys; simpl; [lia |].
  destruct ys as [| y ys]; [lia |]. specialize (IH ys).
  destruct (x =? y); lia.
Qed.

Lemma multiclass_accuracy_rows (preds : tensor f32) (target : tensor Z) (n c : nat) :
  (0 < n)%nat -> (0 < c)%nat ->
  shape preds = [n; c] -> length (elems preds) = (n * c)%nat ->
  shape target = [n] -> length (elems target) = n ->
  (forall x, x ∈ elems target -> 0 <= x < Z.of_nat c) ->
  multiclass_accuracy (Z.of_nat c) preds target
  = Ok (Contract.share_equal (Contract.row_argmax (elems preds) n c) (elems target)).
Proof.
  intros Hn Hc Hshape Hlen Htarget Hentries Hbound.
  unfold multiclass_accuracy. rewrite Hshape, Htarget.
  rewrite Z.eqb_refl. cbn [negb].
  replace (Z.of_nat c <? Z.of_nat (length (remove_dups (elems target)))) with false
    by (symmetry; apply Z.ltb_ge; pose proof (distinct_bound _ _ Hbound); lia).
  replace (n =? 0)%nat with false by (symmetry; apply Nat.eqb_neq; lia).
  cbn [orb].
  rewrite (predicted_classes_rows _ _ _ Hlen).
  unfold broadcast_pairs. rewrite length_row_argmax, Hentries, Nat.eqb_refl.
  rewrite fst_zip, snd_zip by (rewrite length_row_argmax; lia).
  rewrite length_zip_with, length_row_argmax, Hentries, Nat.min_id.
  unfold safe_divide, Contract.share_equal. rewrite length_row_argmax.
  set (tp := count_equal _ _).
  replace (tp + (Z.of_nat n - tp)) with (Z.of_nat n) by lia.
  now replace (Z.of_nat n =? 0) with false by (symmetry; apply Z.eqb_neq; lia).
Qed.

Lemma view_rows_matrix (t : tensor f32) (n c : nat) :
  (0 < n)%nat -> (0 < c)%nat -> length (elems t) = (n * c)%nat ->
  view_rows t (Z.of_nat c) = Ok (mkTensor [n; c] (elems t)).
Proof.
  intros Hn Hc Hlen. unfold view_rows. rewrite Hlen.
  replace (0 <? Z.of_nat c) with true by (symmetry; apply Z.ltb_lt; lia).
  rewrite Nat2Z.inj_mul, Z.mod_mul by lia. simpl.
  rewrite Z.div_mul by lia. now rewrite !Nat2Z.id.
Qed.

End Accuracy.

(** X16. When [num_classes] is not 2 the metric is the multi-class one,
    and the accuracy of a step is the share of rows of the batch whose
    [torch.argmax] over the raw scores (the logits, reshaped, with no
    softmax applied) equals the [torch.argmax] of the label row.  For the
    scores [[2,1,0],[0,1,2]] and the labels [[1,0,0],[0,0,1]] with 3
    classes, the predicted classes are [0,2], the true classes are [0,2]
    and the accuracy is 1.0. *)
Theorem step_accuracy_multiclass :
  (forall (E : Externals) (config : HParams) (self : LightningModel.t)
          (batch : LightningModel.Batch) (batch_idx : Z)
          (logits : tensor f32) (n c : nat) (loss : f32),
      num_classes config = Z.of_nat c -> c <> 2%nat -> (0 < c)%nat -> (0 < n)%nat ->
      LightningModel.__init__ config = Ok self ->
      logits_of (LightningModel.model self)
        (LightningModel.input_ids batch) (LightningModel.attention_mask batch) = Ok logits ->
      length (elems logits) = (n * c)%nat ->
      shape (LightningModel.labels batch) = [n; c] ->
      length (elems (LightningModel.labels batch)) = (n * c)%nat ->
      cross_entropy (mkTensor [n; c] (elems logits)) (LightningModel.labels batch) = Ok loss ->
      LightningModel.training_step self batch batch_idx
      = Ok {[ "loss" := loss;
              "acc" := Contract.share_equal
                         (Contract.row_argmax (elems logits) n c)
                         (Contract.row_argmax (elems (LightningModel.labels batch)) n c) ]})
  /\ Contract.row_argmax (elems Sample.scores3) 2 3 = [0; 2]
  /\ Contract.row_argmax (elems Sample.labels3) 2 3 = [0; 2]
  /\ Contract.share_equal [0; 2] [0; 2] = f32_one
  /\ (self ← @LightningModel.__init__
               (Sample.externals Sample.bytes_tokenizer Sample.scores3) (Sample.hp 3 "true");
      d ← @LightningModel.training_step
               (Sample.externals Sample.bytes_tokenizer Sample.scores3) self Sample.batch3 0;
      mret (d !! "acc"))
     = Ok (Some f32_one).
Proof.
  split; [| repeat split].
  intros E config self batch batch_idx logits n c loss
    Hclasses Hmulti Hc Hn Hinit Hlogits Hlen Hshape Hlabels Hloss.
  destruct (module_init_inv _ _ Hinit) as (ac & loaded & _ & _ & ->).
  unfold LightningModel.training_step, LightningModel.forward. py_unfold.
  cbn [LightningModel.model LightningModel.config LightningModel.accuracy] in *.
  rewrite Hlogits, Hclasses, (view_rows_matrix _ n c) by assumption.
  rewrite (argmax_dim1_rows _ n c) by assumption.
  unfold Torchmetrics.forward.
  cbn [Torchmetrics.task Torchmetrics.metric_num_classes].
  replace (Z.of_nat c =? 2) with false by (symmetry; apply Z.eqb_neq; lia).
  rewrite (multiclass_accuracy_rows _ _ n c); try assumption; try reflexivity.
  - cbn [elems]. now rewrite Hloss.
  - cbn [elems]. apply length_row_argmax.
  - cbn [elems]. intros x Hx.
    apply (row_argmax_bound (elems (LightningModel.labels batch)) n c);
      [assumption | lia | assumption].
Qed.

Lemma step_accuracy_multiclass_witness :
  exists self,
    @LightningModel.__init__
       (Sample.externals Sample.bytes_tokenizer Sample.scores3) (Sample.hp 3 "true") = Ok self
    /\ @LightningModel.training_step
         (Sample.externals Sample.bytes_tokenizer Sample.scores3) self Sample.batch3 0
       = Ok {[ "loss" := f32_zero;
               "acc" := Contract.share_equal
                          (Contract.row_argmax (elems Sample.scores3) 2 3)
                          (Contract.row_argmax (elems Sample.labels3) 2 3) ]}.
Proof.
  destruct (@LightningModel.__init__
              (Sample.externals Sample.bytes_tokenizer Sample.scores3) (Sample.hp 3 "true"))
    as [self |] eqn:Hinit; [| discriminate].
  exists self. split; [reflexivity |].
  apply (proj1 step_accuracy_multiclass
           (Sample.externals Sample.bytes_tokenizer Sample.scores3)
           (Sample.hp 3 "true") self Sample.batch3 0 Sample.scores3 2%nat 3%nat f32_zero);
    try reflexivity; try lia; try exact Hinit.
Defined.

(** C6.  The accuracy of a step is meant to compare the arg-max of the raw
    scores with the arg-max of the one-hot label row, as the comment above
    the call says and as the multi-class metric does.  With 2 classes the
    code does not: [__init__] selects the binary metric, which takes
    predictions and targets of one shape and applies no arg-max.  On the
    scores [[2,1],[0,1]] and the labels [[1,0],[0,1]], whose arg-max
    classes are [0,1] and [0,1], the multi-class metric returns 1.0 and
    each of the three steps of the module raises [RuntimeError]. *)
Lemma binary_step_raises :
  Contract.row_argmax (elems Sample.scores2) 2 2 = [0; 1]
  /\ Contract.row_argmax (elems Sample.labels2) 2 2 = [0; 1]
  /\ Contract.share_equal [0; 1] [0; 1] = f32_one
  /\ (true_classes ← argmax_dim1 Sample.labels2;
      Torchmetrics.multiclass_accuracy 2 Sample.scores2 true_classes)
     = Ok f32_one
  /\ (self ← @LightningModel.__init__
               (Sample.externals Sample.bytes_tokenizer Sample.scores2) (Sample.hp 2 "true");
      mret (Torchmetrics.task (LightningModel.accuracy self)))
     = Ok Torchmetrics.binary
  /\ (self ← @LightningModel.__init__
               (Sample.externals Sample.bytes_tokenizer Sample.scores2) (Sample.hp 2 "true");
      @LightningModel.training_step
        (Sample.externals Sample.bytes_tokenizer Sample.scores2) self Sample.batch2 0)
     = Raise RuntimeError
  /\ (self ← @LightningModel.__init__
               (Sample.externals Sample.bytes_tokenizer Sample.scores2) (Sample.hp 2 "true");
      @LightningModel.validation_step
        (Sample.externals Sample.bytes_tokenizer Sample.scores2) self Sample.batch2 0 0)
     = Raise RuntimeError
  /\ (self ← @LightningModel.__init__
               (Sample.externals Sample.bytes_tokenizer Sample.scores2) (Sample.hp 2 "true");
      @LightningModel.test_step
        (Sample.externals Sample.bytes_tokenizer Sample.scores2) self Sample.batch2 0 0)
     = Raise RuntimeError.
Proof. repeat split. Qed.

(* ================================================================= *)
(** * Further properties *)

(** ** What [__getitem__] does at a row *)

Section Rows.

Lemma position_in_range (n : nat) (i : Z) :
  - Z.of_nat n <= i < Z.of_nat n ->
  position n i = Ok (Z.to_nat (i mod Z.of_nat n))
  /\ (Z.to_nat (i mod Z.of_nat n) < n)%nat.
Proof.
  intros Hi.
  assert (Hmod : 0 <= i mod Z.of_nat n < Z.of_nat n) by (apply Z.mod_pos_bound; lia).
  split; [| lia]. unfold position.
  destruct (Z.leb_spec 0 i) as [Hpos | Hneg]; simpl.
  - replace (i <? Z.of_nat n) with true by (symmetry; apply Z.ltb_lt; lia).
    now rewrite Z.mod_small by lia.
  - replace (- Z.of_nat n <=? i) with true by (symmetry; apply Z.leb_le; lia).
    replace (i <? 0) with true by (symmetry; apply Z.ltb_lt; lia).
    simpl. do 2 f_equal.
    rewrite <- (Z_mod_plus_full i 1 (Z.of_nat n)).
    rewrite Z.mod_small by lia. lia.
Qed.

(** The body of [__getitem__] once the row is read. *)
Lemma getitem_at_row (self : CSLMDataset.t) (idx : Z) (r : nat) (sentence label : value) :
  position (length (rows (CSLMDataset.data self))) idx = Ok r ->
  rows (CSLMDataset.data self) !! r = Some (sentence, label) ->
  CSLMDataset.__getitem__ self idx
  = (label_num ← Py.getitem (CSLMDataset.labels2num self) label;
     one_hot_label ← one_hot (scalar_tensor label_num)
                       (num_classes (CSLMDataset.hparams self));
     encoding ← encode_plus (CSLMDataset.tokenizer self) sentence 128;
     mret (CSLMDataset.mkItem (flatten (enc_input_ids encoding))
                              (squeeze (enc_attention_mask encoding))
                              (float one_hot_label))).
Proof.
  intros Hpos Hrow. unfold CSLMDataset.__getitem__, iloc. py_unfold.
  rewrite Hpos. simpl. rewrite Hrow. reflexivity.
Qed.

Lemma getitem_dict_raise {V} (d : gmap string V) (key : value) (e : exn) :
  Py.getitem d key = Raise e -> e = KeyError key.
Proof.
  unfold Py.getitem. destruct key as [s | z |]; try (now intros [= <-]).
  destruct (d !! s); [discriminate | now intros [= <-]].
Qed.

Lemma getitem_dict_ok {V} (d : gmap string V) (key : value) (v : V) :
  Py.getitem d key = Ok v -> exists s, key = Str s /\ d !! s = Some v.
Proof.
  unfold Py.getitem. destruct key as [s | z |]; try discriminate.
  destruct (d !! s) as [v' |] eqn:Hs; [| discriminate].
  intros [= <-]. now exists s.
Qed.

Lemma one_hot_raise (t : tensor Z) (classes : Z) (e : exn) :
  one_hot t classes = Raise e -> e = RuntimeError.
Proof.
  unfold one_hot. destruct (elems t) as [| v vs].
  - destruct (classes <=? 0); [now intros [= <-] | discriminate].
  - destruct (existsb _ _); [now intros [= <-] |].
    destruct (classes =? -1); [discriminate |].
    destruct (_ <? classes); [discriminate | now intros [= <-]].
Qed.

(** The one-hot vector of a class index: [classes] entries, or one more
    than the index when [classes] is -1. *)
Lemma one_hot_scalar_inv (k classes : Z) (t : tensor Z) :
  0 <= k ->
  one_hot (scalar_tensor k) classes = Ok t ->
  (k < classes \/ classes = -1)
  /\ t = mkTensor [Z.to_nat (if classes =? -1 then k + 1 else classes)]
           (one_hot_row (Z.to_nat k)
              (Z.to_nat (if classes =? -1 then k + 1 else classes))).
Proof.
  intros Hk. unfold one_hot, scalar_tensor. simpl.
  replace (k <? 0) with false by (symmetry; apply Z.ltb_ge; lia). simpl.
  rewrite !app_nil_r.
  destruct (Z.eqb_spec classes (-1)) as [-> | Hne].
  - intros [= <-]. auto.
  - destruct (Z.ltb_spec k classes); [| discriminate].
    intros [= <-]. auto.
Qed.

Lemma encode_plus_raise (tok : Tokenizer) (sentence : value) (n : nat) (e : exn) :
  encode_plus tok sentence n = Raise e -> e = ValueError \/ e = TypeError.
Proof.
  unfold encode_plus. destruct (pad_token_id tok); [| intros [= <-]; auto].
  destruct sentence; [destruct (padding_side tok); discriminate | |];
    intros [= <-]; auto.
Qed.

Lemma encode_plus_ok (tok : Tokenizer) (sentence : value) (n : nat) (enc : BatchEncoding) :
  encode_plus tok sentence n = Ok enc ->
  exists pad s, pad_token_id tok = Some pad /\ sentence = Str s.
Proof.
  unfold encode_plus. destruct (pad_token_id tok) as [pad |]; [| discriminate].
  destruct sentence as [s | |]; try discriminate. intros _. now exists pad, s.
Qed.

End Rows.

(** X1. On the indices of a 64-bit signed integer, [__getitem__] raises
    [IndexError] exactly outside [-size, size): inside that range it
    returns an item or raises one of the other exceptions, never
    [IndexError]. *)
Theorem getitem_index_error_iff (self : CSLMDataset.t) (idx : Z) :
  - 2 ^ 63 <= idx < 2 ^ 63 ->
  CSLMDataset.__getitem__ self idx = Raise IndexError
  <-> (Z.of_nat (CSLMDataset.__len__ self) <= idx
       \/ idx < - Z.of_nat (CSLMDataset.__len__ self)).
Proof.
  intros Hword. unfold CSLMDataset.__len__. split.
  - intros Hraise.
    destruct (decide (- Z.of_nat (length (rows (CSLMDataset.data self))) <= idx
                      < Z.of_nat (length (rows (CSLMDataset.data self)))))
      as [Hin | Hout]; [| lia].
    exfalso.
    destruct (position_in_range _ _ Hin) as [Hpos Hlt].
    destruct (lookup_lt_is_Some_2 _ _ Hlt) as [[sentence label] Hrow].
    rewrite (getitem_at_row _ _ _ _ _ Hpos Hrow) in Hraise. py_unfold.
    destruct (Py.getitem _ label) as [k | e] eqn:Hk.
    + destruct (one_hot _ _) as [t | e] eqn:Ht.
      * destruct (encode_plus _ _ _) as [enc | e] eqn:Henc; [discriminate |].
        apply encode_plus_raise in Henc as [-> | ->]; discriminate.
      * apply one_hot_raise in Ht as ->. discriminate.
    + apply getitem_dict_raise in Hk as ->. discriminate.
  - intros Hout. unfold CSLMDataset.__getitem__. py_unfold.
    now rewrite (iloc_outside _ _ Hout), (in_int64 _ Hword).
Qed.

Lemma getitem_index_error_iff_witness :
  CSLMDataset.__getitem__ (Sample.dataset 3 Sample.bytes_tokenizer) 7 = Raise IndexError.
Proof.
  apply (proj2 (getitem_index_error_iff (Sample.dataset 3 Sample.bytes_tokenizer) 7
                  ltac:(change (2 ^ 63) with 9223372036854775808; lia))).
  left. unfold CSLMDataset.__len__. simpl. lia.
Defined.

(** X2. When [__getitem__] returns an item, the index is in [-size, size),
    the row it addresses (counted from the end for a negative index) holds a
    text and a label of the vocabulary, the tokenizer has a padding token,
    and the class index is below [num_classes] unless [num_classes] is -1.
    The label vector is the one-hot row of the class index; it has
    [num_classes] entries, or one more than the class index when
    [num_classes] is -1. *)
Theorem getitem_ok_inv `{Externals} (path : string) (hp : HParams) (is_train : bool)
    (self : CSLMDataset.t) (idx : Z) (item : CSLMDataset.Item) :
  CSLMDataset.__init__ path hp is_train = Ok self ->
  CSLMDataset.__getitem__ self idx = Ok item ->
  exists (s label : string) (k pad : Z),
    - Z.of_nat (CSLMDataset.__len__ self) <= idx < Z.of_nat (CSLMDataset.__len__ self)
    /\ rows (CSLMDataset.data self)
         !! Z.to_nat (idx mod Z.of_nat (CSLMDataset.__len__ self))
       = Some (Str s, Str label)
    /\ CSLMDataset.labels2num self !! label = Some k
    /\ (k < num_classes hp \/ num_classes hp = -1)
    /\ pad_token_id (CSLMDataset.tokenizer self) = Some pad
    /\ shape (CSLMDataset.labels item)
       = [Z.to_nat (if num_classes hp =? -1 then k + 1 else num_classes hp)]
    /\ elems (CSLMDataset.labels item)
       = map f32_of_Z
           (one_hot_row (Z.to_nat k)
              (Z.to_nat (if num_classes hp =? -1 then k + 1 else num_classes hp))).
Proof.
  intros Hinit Hitem. unfold CSLMDataset.__len__.
  destruct (dataset_init_inv _ _ _ _ Hinit) as (_ & _ & Hhp & Hvoc).
  destruct (decide (- Z.of_nat (length (rows (CSLMDataset.data self))) <= idx
                    < Z.of_nat (length (rows (CSLMDataset.data self)))))
    as [Hin | Hout].
  2: { unfold CSLMDataset.__getitem__ in Hitem. py_unfold.
       rewrite (iloc_outside _ _) in Hitem by lia. discriminate. }
  destruct (position_in_range _ _ Hin) as [Hpos Hlt].
  destruct (lookup_lt_is_Some_2 _ _ Hlt) as [[sentence label] Hrow].
  rewrite (getitem_at_row _ _ _ _ _ Hpos Hrow) in Hitem. py_unfold.
  destruct (Py.getitem _ label) as [k |] eqn:Hk; [| discriminate].
  destruct (one_hot _ _) as [t |] eqn:Ht; [| discriminate].
  destruct (encode_plus _ _ _) as [enc |] eqn:Henc; [| discriminate].
  injection Hitem as <-.
  apply getitem_dict_ok in Hk as (l & -> & Hl).
  apply encode_plus_ok in Henc as (pad & s & Hpad & ->).
  assert (Hk0 : 0 <= k).
  { rewrite Hvoc in Hl.
    destruct (vocabulary_lookup _ _ Hl) as [[_ ->] | [[_ ->] | [_ ->]]]; lia. }
  rewrite Hhp in Ht. apply (one_hot_scalar_inv _ _ _ Hk0) in Ht as [Hclass ->].
  exists s, l, k, pad. simpl. auto 10.
Qed.

Lemma getitem_ok_inv_witness :
  exists (item : CSLMDataset.Item) (pad : Z),
    CSLMDataset.__getitem__ (Sample.dataset 3 Sample.bytes_tokenizer) (-3) = Ok item
    /\ rows Sample.frame !! 1%nat = Some (Str "so so", Str "neutral")
    /\ pad_token_id Sample.bytes_tokenizer = Some pad
    /\ elems (CSLMDataset.labels item) = [f32_zero; f32_zero; f32_one].
Proof.
  destruct (CSLMDataset.__getitem__ (Sample.dataset 3 Sample.bytes_tokenizer) (-3))
    as [item |] eqn:Hitem; [| discriminate].
  destruct (@getitem_ok_inv (Sample.externals Sample.bytes_tokenizer Sample.scores3)
              "train.csv" (Sample.hp 3 "true") true
              (Sample.dataset 3 Sample.bytes_tokenizer) (-3) item eq_refl Hitem)
    as (s & label & k & pad & _ & Hrow & Hk & _ & Hpad & _ & Hlabels).
  exists item, pad. split; [reflexivity |].
  simpl in Hrow. split; [reflexivity |]. split; [exact Hpad |].
  injection Hrow as <- <-. injection Hk as <-. exact Hlabels.
Defined.

(** ** From one-hot labels back to class indices *)

Section RoundTrip.

Lemma greater_zero_zero (i j : nat) :
  (j < i)%nat -> greater_or_nan (f32_of_Z 0) i f32_zero j = false.
Proof.
  intros Hlt. unfold greater_or_nan. simpl.
  apply Nat.ltb_ge. lia.
Qed.

(** Behind a 1.0, a run of 0.0 changes nothing. *)
Lemma argmax_from_one (k besti i n : nat) :
  (k < i)%nat ->
  argmax_from f32_one besti i
    (map f32_of_Z (map (fun j => if (j =? k)%nat then 1 else 0) (seq i n)))
  = besti.
Proof.
  revert i. induction n as [| n IH]; intros i Hk; simpl; [reflexivity |].
  destruct (Nat.eqb_spec i k) as [-> | _]; [lia |].
  change (greater_or_nan (f32_of_Z 0) i f32_one besti) with false.
  apply IH. lia.
Qed.

(** Behind a 0.0, a run of 0.0 with a single 1.0 at [k] points at [k]. *)
Lemma argmax_from_zero (k besti i n : nat) :
  (besti < i)%nat -> (i <= k < i + n)%nat ->
  argmax_from f32_zero besti i
    (map f32_of_Z (map (fun j => if (j =? k)%nat then 1 else 0) (seq i n)))
  = k.
Proof.
  revert i. induction n as [| n IH]; intros i Hlt Hk; simpl; [lia |].
  destruct (Nat.eqb_spec i k) as [-> | Hne].
  - change (greater_or_nan (f32_of_Z 1) k f32_zero besti) with true.
    change (f32_of_Z 1) with f32_one. apply argmax_from_one. lia.
  - rewrite greater_zero_zero by assumption. apply IH; lia.
Qed.

Lemma argmax_one_hot_row (k n : nat) :
  (k < n)%nat -> argmax_list (map f32_of_Z (one_hot_row k n)) = k.
Proof.
  intros Hk. unfold one_hot_row. destruct n as [| n]; [lia |]. simpl.
  destruct k as [| k]; simpl.
  - change (f32_of_Z 1) with f32_one. apply argmax_from_one. lia.
  - change (f32_of_Z 0) with f32_zero. apply argmax_from_zero; lia.
Qed.

(** Row [i] of a matrix built block by block. *)
Lemma row_of_blocks {A} (block : nat -> list A) (ks : list nat) (c i : nat) (k : nat) :
  (forall j, length (block j) = c) ->
  ks !! i = Some k ->
  Contract.row (flat_map block ks) c i = block k.
Proof.
  intros Hblock. revert i. induction ks as [| k0 ks IH]; intros i Hi; [discriminate |].
  unfold Contract.row in *. simpl. destruct i as [| i]; simpl in *.
  - injection Hi as ->. rewrite drop_0, take_app_length' by (symmetry; apply Hblock).
    reflexivity.
  - replace (c + i * c)%nat with (length (block k0) + i * c)%nat by (now rewrite Hblock).
    rewrite drop_app_add. now apply IH.
Qed.

Lemma length_blocks {A} (block : nat -> list A) (ks : list nat) (c : nat) :
  (forall j, length (block j) = c) ->
  length (flat_map block ks) = (length ks * c)%nat.
Proof.
  intros Hblock. induction ks as [| k ks IH]; simpl; [reflexivity |].
  rewrite length_app, Hblock, IH. reflexivity.
Qed.

End RoundTrip.

(** X4. The label rows the adapter builds ([one_hot(...).float()]) give back
    their class indices in the steps: on a label tensor whose rows are the
    one-hot rows of the classes [ks], [torch.argmax(labels, dim=1)] is
    [ks]. *)
Theorem one_hot_argmax_round_trip (ks : list nat) (c : nat) :
  (0 < c)%nat ->
  Forall (fun k => (k < c)%nat) ks ->
  argmax_dim1
    (mkTensor [length ks; c]
       (flat_map (fun k => map f32_of_Z (one_hot_row k c)) ks))
  = Ok (mkTensor [length ks] (map Z.of_nat ks)).
Proof.
  intros Hc Hks.
  assert (Hblock : forall j, length (map f32_of_Z (one_hot_row j c)) = c)
    by (intros j; now rewrite length_map, length_one_hot_row).
  rewrite (argmax_dim1_rows _ (length ks) c);
    [| reflexivity | assumption | now apply length_blocks].
  do 2 f_equal. cbn [elems]. unfold Contract.row_argmax.
  apply list_eq. intros i. rewrite !list_lookup_fmap.
  destruct (ks !! i) as [k |] eqn:Hi.
  - rewrite lookup_seq_lt by (now apply lookup_lt_Some in Hi). simpl.
    rewrite (row_of_blocks _ _ _ _ k Hblock Hi).
    rewrite argmax_one_hot_row; [reflexivity |].
    rewrite Forall_forall in Hks. apply Hks, list_elem_of_lookup. eauto.
  - rewrite lookup_seq_ge by (now apply lookup_ge_None in Hi). reflexivity.
Qed.

Lemma one_hot_argmax_round_trip_witness :
  argmax_dim1 Sample.labels3 = Ok (mkTensor [2%nat] [0; 2]).
Proof.
  apply (one_hot_argmax_round_trip [0; 2]%nat 3); [lia |].
  repeat constructor.
Defined.

(** ** The freeze option and the optimizer *)

Section Freezing.

(** [freeze_encoder] rewrites parameters under their own names. *)
Lemma freeze_encoder_as_map (m : Network) :
  named_parameters (LightningModel.freeze_encoder m)
  = map (fun '(n, p) =>
           (n, if contains "classifier" n then p else mkParam (param_id p) false))
        (named_parameters m).
Proof.
  unfold LightningModel.freeze_encoder. simpl.
  apply map_ext. intros [n p]. now destruct (contains "classifier" n).
Qed.

Lemma filter_by_name_frozen (f : string -> bool) (l : list (string * Param)) :
  map param_id
    (map snd
       (List.filter (fun '(n, _) => f n)
          (map (fun '(n, p) =>
                  (n, if contains "classifier" n then p else mkParam (param_id p) false))
               l)))
  = map param_id (map snd (List.filter (fun '(n, _) => f n) l)).
Proof.
  induction l as [| [n p] l IH]; simpl; [reflexivity |].
  destruct (f n); simpl; rewrite IH; [| reflexivity].
  now destruct (contains "classifier" n).
Qed.

End Freezing.

(** X5. The freeze option is on only for the exact string "true": with any
    other value of [freeze], [__init__] keeps the network as the hub
    returned it, every [requires_grad] included. *)
Theorem freeze_disabled_keeps_network `{Externals} (config : HParams)
    (self : LightningModel.t) :
  freeze config <> "true"%string ->
  LightningModel.__init__ config = Ok self ->
  exists ac,
    auto_config_from_pretrained (upstream_model config) (num_classes config) = Ok ac
    /\ model_from_pretrained (upstream_model config) ac = Ok (LightningModel.model self).
Proof.
  intros Hfreeze Hinit.
  destruct (module_init_inv _ _ Hinit) as (ac & loaded & Hac & Hloaded & ->).
  exists ac. split; [exact Hac |]. simpl.
  now replace (String.eqb (freeze config) "true") with false
    by (symmetry; now apply String.eqb_neq).
Qed.

Lemma freeze_disabled_keeps_network_witness :
  exists self,
    @LightningModel.__init__ (Sample.externals Sample.bytes_tokenizer Sample.scores3)
       (Sample.hp 3 "True") = Ok self
    /\ LightningModel.model self = Sample.network.
Proof.
  destruct (@LightningModel.__init__
              (Sample.externals Sample.bytes_tokenizer Sample.scores3) (Sample.hp 3 "True"))
    as [self |] eqn:Hinit; [| discriminate].
  destruct (@freeze_disabled_keeps_network
              (Sample.externals Sample.bytes_tokenizer Sample.scores3)
              (Sample.hp 3 "True") self) as (ac & _ & Hloaded);
    [discriminate | exact Hinit |].
  exists self. split; [reflexivity |]. now injection Hloaded.
Defined.

(** X6. [configure_optimizers] does not look at [requires_grad]: on a module
    whose encoder is frozen the two groups hold the same parameters, in the
    same order, as on the unfrozen module, so the frozen parameters are
    handed to the optimizer too, with [requires_grad] false. *)
Theorem optimizer_groups_ignore_freeze (self : LightningModel.t) :
  map (fun o => map (fun g => map param_id (LightningModel.params g))
                    (LightningModel.param_groups o))
      (fst (LightningModel.configure_optimizers
              (LightningModel.mk (LightningModel.config self)
                 (LightningModel.auto_config self)
                 (LightningModel.freeze_encoder (LightningModel.model self))
                 (LightningModel.accuracy self) (LightningModel.logged self))))
  = map (fun o => map (fun g => map param_id (LightningModel.params g))
                      (LightningModel.param_groups o))
        (fst (LightningModel.configure_optimizers self))
  /\ forall (i : nat) (name : string) (p : Param),
       named_parameters (LightningModel.model self) !! i = Some (name, p) ->
       ~ occurs_in "classifier" name ->
       exists o g,
         In o (fst (LightningModel.configure_optimizers
                      (LightningModel.mk (LightningModel.config self)
                         (LightningModel.auto_config self)
                         (LightningModel.freeze_encoder (LightningModel.model self))
                         (LightningModel.accuracy self) (LightningModel.logged self))))
         /\ In g (LightningModel.param_groups o)
         /\ In (mkParam (param_id p) false) (LightningModel.params g).
Proof.
  unfold LightningModel.configure_optimizers.
  cbn [fst LightningModel.model LightningModel.config map
       LightningModel.param_groups LightningModel.params].
  rewrite freeze_encoder_as_map. split.
  - rewrite (filter_by_name_frozen
               (fun n => negb (LightningModel.any_in ["bias"; "LayerNorm.weight"]%string n))).
    rewrite (filter_by_name_frozen
               (fun n => LightningModel.any_in ["bias"; "LayerNorm.weight"]%string n)).
    reflexivity.
  - intros i name p Hi Hname. apply contains_false in Hname.
    assert (Hfrozen :
              map (fun '(n, q) =>
                     (n, if contains "classifier" n then q else mkParam (param_id q) false))
                  (named_parameters (LightningModel.model self)) !! i
              = Some (name, mkParam (param_id p) false)).
    { rewrite list_lookup_fmap, Hi. simpl. now rewrite Hname. }
    eexists. destruct (LightningModel.any_in ["bias"; "LayerNorm.weight"]%string name) eqn:Hany.
    + eexists. split; [left; reflexivity |]. split; [right; left; reflexivity |].
      cbn [LightningModel.params].
      apply (in_filter_snd _ _ i name _ Hfrozen). exact Hany.
    + eexists. split; [left; reflexivity |]. split; [left; reflexivity |].
      cbn [LightningModel.params].
      apply (in_filter_snd _ _ i name _ Hfrozen). cbv beta iota. now rewrite Hany.
Qed.

Lemma optimizer_groups_ignore_freeze_witness :
  exists o g,
    In o (fst (LightningModel.configure_optimizers
                 (LightningModel.mk (LightningModel.config Sample.lightning)
                    (LightningModel.auto_config Sample.lightning)
                    (LightningModel.freeze_encoder (LightningModel.model Sample.lightning))
                    (LightningModel.accuracy Sample.lightning)
                    (LightningModel.logged Sample.lightning))))
    /\ In g (LightningModel.param_groups o)
    /\ In (mkParam 4 false) (LightningModel.params g).
Proof.
  apply (proj2 (optimizer_groups_ignore_freeze Sample.lightning) 4%nat
           "bert.encoder.layer.0.attention.self.query.bias"%string (mkParam 4 true) eq_refl).
  now apply contains_false.
Defined.

(** ** How the steps fail *)

Section StepFailures.

Context `{Externals}.

(** The three steps, as the per-phase step under the keys of the phase. *)
Lemma training_step_keyed (self : LightningModel.t) (batch : LightningModel.Batch) (i : Z) :
  LightningModel.training_step self batch i
  = Contract.keyed "loss" "acc" (Contract.per_phase_step self batch).
Proof.
  unfold LightningModel.training_step, LightningModel.forward,
    Contract.keyed, Contract.per_phase_step. py_unfold.
  repeat match goal with
         | |- context [match ?r with Ok _ => _ | Raise _ => _ end] =>
             destruct r; try reflexivity
         end.
Qed.

Lemma validation_step_keyed (self : LightningModel.t) (batch : LightningModel.Batch)
    (i d : Z) :
  LightningModel.validation_step self batch i d
  = Contract.keyed "val_loss" "val_acc" (Contract.per_phase_step self batch).
Proof.
  unfold LightningModel.validation_step, LightningModel.forward,
    Contract.keyed, Contract.per_phase_step. py_unfold.
  repeat match goal with
         | |- context [match ?r with Ok _ => _ | Raise _ => _ end] =>
             destruct r; try reflexivity
         end.
Qed.

Lemma test_step_keyed (self : LightningModel.t) (batch : LightningModel.Batch) (i d : Z) :
  LightningModel.test_step self batch i d
  = Contract.keyed "test_loss" "test_acc" (Contract.per_phase_step self batch).
Proof.
  unfold LightningModel.test_step, LightningModel.forward,
    Contract.keyed, Contract.per_phase_step. py_unfold.
  repeat match goal with
         | |- context [match ?r with Ok _ => _ | Raise _ => _ end] =>
             destruct r; try reflexivity
         end.
Qed.

Lemma keyed_raise (k1 k2 : string) (r : result (f32 * f32)) (e : exn) :
  r = Raise e -> Contract.keyed k1 k2 r = Raise e.
Proof. now intros ->. Qed.

Lemma keyed_not_ok (k1 k2 : string) (r : result (f32 * f32)) :
  is_ok r = false -> is_ok (Contract.keyed k1 k2 r) = false.
Proof. now destruct r. Qed.

Lemma view_rows_shape {A} (t preds : tensor A) (c : Z) :
  view_rows t c = Ok preds ->
  shape preds = [Z.to_nat (Z.of_nat (length (elems t)) / c); Z.to_nat c]
  /\ elems preds = elems t
  /\ 0 < c /\ Z.of_nat (length (elems t)) mod c = 0.
Proof.
  unfold view_rows.
  destruct (Z.ltb_spec 0 c); [| discriminate].
  destruct (Z.eqb_spec (Z.of_nat (length (elems t)) mod c) 0); [| discriminate].
  simpl. intros [= <-]. auto.
Qed.

Lemma view_rows_raise {A} (t : tensor A) (c : Z) :
  ~ (0 < c /\ Z.of_nat (length (elems t)) mod c = 0) ->
  view_rows t c = Raise RuntimeError.
Proof.
  intros Hbad. unfold view_rows.
  destruct (Z.ltb_spec 0 c); [| reflexivity].
  destruct (Z.eqb_spec (Z.of_nat (length (elems t)) mod c) 0); [| reflexivity].
  exfalso. auto.
Qed.

Lemma argmax_dim1_shape (t : tensor f32) (target : tensor Z) :
  argmax_dim1 t = Ok target ->
  exists d0 d1 rest, shape t = d0 :: d1 :: rest /\ d1 <> 0%nat /\ shape target = d0 :: rest.
Proof.
  unfold argmax_dim1. destruct (shape t) as [| d0 [| d1 rest]]; try discriminate.
  destruct (Nat.eqb_spec d1 0); [discriminate |].
  intros [= <-]. now exists d0, d1, rest.
Qed.

Lemma argmax_dim1_raise (t : tensor f32) :
  (length (shape t) < 2)%nat \/ (exists d0 rest, shape t = d0 :: 0%nat :: rest) ->
  argmax_dim1 t = Raise IndexError.
Proof.
  unfold argmax_dim1. intros [Hrank | (d0 & rest & ->)]; [| reflexivity].
  destruct (shape t) as [| d0 [| d1 rest]]; simpl in Hrank; try reflexivity. lia.
Qed.

(** With the binary metric and labels of rank 2, the per-phase step does
    not return. *)
Lemma binary_per_phase_step (self : LightningModel.t) (batch : LightningModel.Batch)
    (n c : nat) :
  Torchmetrics.task (LightningModel.accuracy self) = Torchmetrics.binary ->
  shape (LightningModel.labels batch) = [n; c] ->
  is_ok (Contract.per_phase_step self batch) = false.
Proof.
  intros Htask Hshape. unfold Contract.per_phase_step. py_unfold.
  destruct (logits_of _ _ _) as [logits |]; [| reflexivity].
  destruct (view_rows logits _) as [preds |] eqn:Hview; [| reflexivity].
  destruct (argmax_dim1 _) as [target |] eqn:Hargmax; [| reflexivity].
  apply view_rows_shape in Hview as (Hpreds & _).
  apply argmax_dim1_shape in Hargmax as (d0 & d1 & rest & Hlabels & _ & Htarget).
  rewrite Hshape in Hlabels. injection Hlabels as <- <- <-.
  unfold Torchmetrics.forward. rewrite Htask, Hpreds, Htarget.
  destruct (decide _) as [Heq | _]; [discriminate | reflexivity].
Qed.

End StepFailures.

(** X7. With [num_classes] equal to 2 the module uses the binary metric,
    and on a batch whose labels have rank 2 (one one-hot row per example,
    as the adapter's items stack) none of the three steps returns: each
    raises. *)
Theorem binary_steps_never_return `{Externals} (config : HParams)
    (self : LightningModel.t) (batch : LightningModel.Batch) (n c : nat)
    (i1 i2 d2 i3 d3 : Z) :
  num_classes config = 2 ->
  LightningModel.__init__ config = Ok self ->
  shape (LightningModel.labels batch) = [n; c] ->
  is_ok (LightningModel.training_step self batch i1) = false
  /\ is_ok (LightningModel.validation_step self batch i2 d2) = false
  /\ is_ok (LightningModel.test_step self batch i3 d3) = false.
Proof.
  intros Hclasses Hinit Hshape.
  assert (Htask : Torchmetrics.task (LightningModel.accuracy self) = Torchmetrics.binary).
  { destruct (module_init_inv _ _ Hinit) as (ac & loaded & _ & _ & ->).
    simpl. now rewrite Hclasses. }
  pose proof (binary_per_phase_step self batch n c Htask Hshape) as Hstep.
  rewrite training_step_keyed, validation_step_keyed, test_step_keyed.
  repeat split; now apply keyed_not_ok.
Qed.

Lemma binary_steps_never_return_witness :
  exists self,
    @LightningModel.__init__ (Sample.externals Sample.bytes_tokenizer Sample.scores2)
       (Sample.hp 2 "true") = Ok self
    /\ is_ok (@LightningModel.validation_step
                (Sample.externals Sample.bytes_tokenizer Sample.scores2)
                self Sample.batch2 0 0) = false.
Proof.
  destruct (@LightningModel.__init__
              (Sample.externals Sample.bytes_tokenizer Sample.scores2) (Sample.hp 2 "true"))
    as [self |] eqn:Hinit; [| discriminate].
  exists self. split; [reflexivity |].
  apply (@binary_steps_never_return
           (Sample.externals Sample.bytes_tokenizer Sample.scores2)
           (Sample.hp 2 "true") self Sample.batch2 2%nat 2%nat 0 0 0 0 0 eq_refl Hinit eq_refl).
Defined.

(** X8. When the forward pass returns logits that cannot be viewed as rows
    of [num_classes] scores ([num_classes] not positive, or a count of
    logits that [num_classes] does not divide), each of the three steps
    raises [RuntimeError]. *)
Theorem steps_view_error `{Externals} (self : LightningModel.t)
    (batch : LightningModel.Batch) (logits : tensor f32) (i1 i2 d2 i3 d3 : Z) :
  logits_of (LightningModel.model self)
    (LightningModel.input_ids batch) (LightningModel.attention_mask batch) = Ok logits ->
  ~ (0 < num_classes (LightningModel.config self)
     /\ Z.of_nat (length (elems logits)) mod num_classes (LightningModel.config self) = 0) ->
  LightningModel.training_step self batch i1 = Raise RuntimeError
  /\ LightningModel.validation_step self batch i2 d2 = Raise RuntimeError
  /\ LightningModel.test_step self batch i3 d3 = Raise RuntimeError.
Proof.
  intros Hlogits Hbad.
  assert (Hstep : Contract.per_phase_step self batch = Raise RuntimeError).
  { unfold Contract.per_phase_step. py_unfold.
    now rewrite Hlogits, (view_rows_raise _ _ Hbad). }
  rewrite training_step_keyed, validation_step_keyed, test_step_keyed.
  repeat split; now apply keyed_raise.
Qed.

Lemma steps_view_error_witness :
  @LightningModel.training_step (Sample.externals Sample.bytes_tokenizer Sample.scores2)
    Sample.lightning Sample.batch2 0
  = Raise RuntimeError.
Proof.
  apply (@steps_view_error (Sample.externals Sample.bytes_tokenizer Sample.scores2)
           Sample.lightning Sample.batch2 Sample.scores2 0 0 0 0 0 eq_refl).
  simpl. intros (_ & Hmod). discriminate.
Defined.

(** X9. When the logits can be viewed as rows but the labels have no class
    dimension to reduce (fewer than two dimensions, as for a single item
    that was not batched, or a dimension 1 of size 0), each of the three
    steps raises [IndexError]. *)
Theorem steps_labels_error `{Externals} (self : LightningModel.t)
    (batch : LightningModel.Batch) (logits preds : tensor f32) (i1 i2 d2 i3 d3 : Z) :
  logits_of (LightningModel.model self)
    (LightningModel.input_ids batch) (LightningModel.attention_mask batch) = Ok logits ->
  view_rows logits (num_classes (LightningModel.config self)) = Ok preds ->
  ((length (shape (LightningModel.labels batch)) < 2)%nat
   \/ exists d0 rest, shape (LightningModel.labels batch) = d0 :: 0%nat :: rest) ->
  LightningModel.training_step self batch i1 = Raise IndexError
  /\ LightningModel.validation_step self batch i2 d2 = Raise IndexError
  /\ LightningModel.test_step self batch i3 d3 = Raise IndexError.
Proof.
  intros Hlogits Hview Hlabels.
  assert (Hstep : Contract.per_phase_step self batch = Raise IndexError).
  { unfold Contract.per_phase_step. py_unfold.
    now rewrite Hlogits, Hview, (argmax_dim1_raise _ Hlabels). }
  rewrite training_step_keyed, validation_step_keyed, test_step_keyed.
  repeat split; now apply keyed_raise.
Qed.

Lemma steps_labels_error_witness :
  @LightningModel.test_step (Sample.externals Sample.bytes_tokenizer Sample.scores3)
    Sample.lightning
    (LightningModel.mkBatch Sample.ids2 Sample.ids2
       (mkTensor [3%nat] [f32_one; f32_zero; f32_zero])) 0 0
  = Raise IndexError.
Proof.
  apply (@steps_labels_error (Sample.externals Sample.bytes_tokenizer Sample.scores3)
           Sample.lightning _ Sample.scores3 Sample.scores3 0 0 0 0 0 eq_refl eq_refl).
  left. simpl. lia.
Defined.

(** ** Steps and epoch-end hooks together *)

Section Hooks.

Lemma keyed_ok (k1 k2 : string) (r : result (f32 * f32)) (d : gmap string f32) :
  Contract.keyed k1 k2 r = Ok d ->
  exists loss acc, r = Ok (loss, acc) /\ d = {[ k1 := loss; k2 := acc ]}.
Proof.
  unfold Contract.keyed. py_unfold. destruct r as [[loss acc] |]; [| discriminate].
  intros [= <-]. now exists loss, acc.
Qed.

Lemma lookup_neither (k1 k2 key : string) (v1 v2 : f32) :
  key <> k1 -> key <> k2 ->
  ({[ k1 := v1; k2 := v2 ]} : gmap string f32) !! key = None.
Proof.
  intros H1 H2. rewrite lookup_insert_ne by congruence.
  now rewrite lookup_singleton_ne by congruence.
Qed.

(** A comprehension over one key stops at the first output without it. *)
Lemma comprehension_missing (key : string) (outputs : list (gmap string f32)) :
  Exists (fun d => d !! key = None) outputs ->
  comprehension (fun x => Py.getitem x (Str key)) outputs = Raise (KeyError (Str key)).
Proof.
  induction 1 as [d rest Hd | d rest _ IH]; cbn [comprehension]; unfold Py.getitem at 1.
  - now rewrite Hd.
  - destruct (d !! key); [| reflexivity]. cbn [Py.bind]. now rewrite IH.
Qed.

Lemma comprehension_present (key : string) (outputs : list (gmap string f32)) :
  Forall (fun d => is_Some (d !! key)) outputs ->
  exists values,
    comprehension (fun x => Py.getitem x (Str key)) outputs = Ok values
    /\ length values = length outputs.
Proof.
  induction 1 as [| d rest [v Hv] _ (values & IH & Hlen)]; cbn [comprehension].
  - now exists [].
  - unfold Py.getitem at 1. rewrite Hv. cbn [Py.bind]. rewrite IH.
    exists (v :: values). simpl. auto.
Qed.

End Hooks.

(** X10. A dict returned by a step holds exactly the two keys of its phase:
    "loss" and "acc" for training, "val_loss" and "val_acc" for validation,
    "test_loss" and "test_acc" for test.  The probabilities computed by the
    softmax are not returned. *)
Theorem step_output_keys `{Externals} (self : LightningModel.t)
    (batch : LightningModel.Batch) (i d' : Z) (d : gmap string f32) :
  (LightningModel.training_step self batch i = Ok d -> dom d = {[ "loss"; "acc" ]})
  /\ (LightningModel.validation_step self batch i d' = Ok d ->
      dom d = {[ "val_loss"; "val_acc" ]})
  /\ (LightningModel.test_step self batch i d' = Ok d ->
      dom d = {[ "test_loss"; "test_acc" ]}).
Proof.
  rewrite training_step_keyed, validation_step_keyed, test_step_keyed.
  split; [| split]; intros Hd; apply keyed_ok in Hd as (loss & acc & _ & ->);
    now rewrite dom_insert_L, dom_singleton_L.
Qed.

Lemma step_output_keys_witness :
  exists d,
    @LightningModel.training_step (Sample.externals Sample.bytes_tokenizer Sample.scores3)
      Sample.lightning Sample.batch3 0 = Ok d
    /\ dom d = {[ "loss"; "acc" ]}.
Proof.
  destruct (@LightningModel.training_step
              (Sample.externals Sample.bytes_tokenizer Sample.scores3)
              Sample.lightning Sample.batch3 0) as [d |] eqn:Hd; [| discriminate].
  exists d. split; [reflexivity |].
  exact (proj1 (@step_output_keys (Sample.externals Sample.bytes_tokenizer Sample.scores3)
                  Sample.lightning Sample.batch3 0 0 d) Hd).
Defined.

(** X11. The hooks read their outputs by key and do not check where they
    come from: one output of another phase's step among the outputs makes a
    hook raise [KeyError] on the first key it reads, which is "loss" for
    training, "val_acc" for validation and "test_acc" for test. *)
Theorem epoch_end_cross_phase `{Externals} (self0 self : LightningModel.t)
    (batch : LightningModel.Batch) (i d' : Z) (d : gmap string f32)
    (outputs : list (gmap string f32)) :
  In d outputs ->
  (LightningModel.training_step self0 batch i = Ok d ->
   LightningModel.validation_epoch_end self outputs = Raise (KeyError (Str "val_acc"))
   /\ LightningModel.test_epoch_end self outputs = Raise (KeyError (Str "test_acc")))
  /\ (LightningModel.validation_step self0 batch i d' = Ok d ->
      LightningModel.training_epoch_end self outputs = Raise (KeyError (Str "loss"))
      /\ LightningModel.test_epoch_end self outputs = Raise (KeyError (Str "test_acc")))
  /\ (LightningModel.test_step self0 batch i d' = Ok d ->
      LightningModel.training_epoch_end self outputs = Raise (KeyError (Str "loss"))
      /\ LightningModel.validation_epoch_end self outputs
         = Raise (KeyError (Str "val_acc"))).
Proof.
  intros Hin.
  rewrite training_step_keyed, validation_step_keyed, test_step_keyed.
  unfold LightningModel.training_epoch_end, LightningModel.validation_epoch_end,
    LightningModel.test_epoch_end. py_unfold.
  split; [| split]; intros Hd; apply keyed_ok in Hd as (loss & acc & _ & ->);
    (split; (rewrite comprehension_missing; [reflexivity |]));
    apply Exists_exists; eexists; (split; [apply list_elem_of_In; exact Hin |]);
    now apply lookup_neither.
Qed.

Lemma epoch_end_cross_phase_witness :
  exists d,
    @LightningModel.training_step (Sample.externals Sample.bytes_tokenizer Sample.scores3)
      Sample.lightning Sample.batch3 0 = Ok d
    /\ @LightningModel.validation_epoch_end
         (Sample.externals Sample.bytes_tokenizer Sample.scores3) Sample.lightning [d]
       = Raise (KeyError (Str "val_acc")).
Proof.
  destruct (@LightningModel.training_step
              (Sample.externals Sample.bytes_tokenizer Sample.scores3)
              Sample.lightning Sample.batch3 0) as [d |] eqn:Hd; [| discriminate].
  exists d. split; [reflexivity |].
  apply (proj1 (@epoch_end_cross_phase
                  (Sample.externals Sample.bytes_tokenizer Sample.scores3)
                  Sample.lightning Sample.lightning Sample.batch3 0 0 d [d]
                  (or_introl eq_refl)) Hd).
Defined.

(** X12. A hook returns exactly when every output holds both keys of its
    phase.  Otherwise it raises [KeyError] on the first key it misses, and
    the keys are read one after the other over all outputs: training reads
    "loss" before "acc", while validation and test read the accuracy key
    before the loss key. *)
Theorem epoch_end_key_errors `{Externals} (self : LightningModel.t)
    (outputs : list (gmap string f32)) :
  ((Exists (fun d => d !! "loss" = None) outputs ->
    LightningModel.training_epoch_end self outputs = Raise (KeyError (Str "loss")))
   /\ (Forall (fun d => is_Some (d !! "loss")) outputs ->
       Exists (fun d => d !! "acc" = None) outputs ->
       LightningModel.training_epoch_end self outputs = Raise (KeyError (Str "acc")))
   /\ (Forall (fun d => is_Some (d !! "loss")) outputs ->
       Forall (fun d => is_Some (d !! "acc")) outputs ->
       is_ok (LightningModel.training_epoch_end self outputs) = true))
  /\ ((Exists (fun d => d !! "val_acc" = None) outputs ->
       LightningModel.validation_epoch_end self outputs = Raise (KeyError (Str "val_acc")))
      /\ (Forall (fun d => is_Some (d !! "val_acc")) outputs ->
          Exists (fun d => d !! "val_loss" = None) outputs ->
          LightningModel.validation_epoch_end self outputs
          = Raise (KeyError (Str "val_loss")))
      /\ (Forall (fun d => is_Some (d !! "val_acc")) outputs ->
          Forall (fun d => is_Some (d !! "val_loss")) outputs ->
          is_ok (LightningModel.validation_epoch_end self outputs) = true))
  /\ ((Exists (fun d => d !! "test_acc" = None) outputs ->
       LightningModel.test_epoch_end self outputs = Raise (KeyError (Str "test_acc")))
      /\ (Forall (fun d => is_Some (d !! "test_acc")) outputs ->
          Exists (fun d => d !! "test_loss" = None) outputs ->
          LightningModel.test_epoch_end self outputs = Raise (KeyError (Str "test_loss")))
      /\ (Forall (fun d => is_Some (d !! "test_acc")) outputs ->
          Forall (fun d => is_Some (d !! "test_loss")) outputs ->
          is_ok (LightningModel.test_epoch_end self outputs) = true)).
Proof.
  unfold LightningModel.training_epoch_end, LightningModel.validation_epoch_end,
    LightningModel.test_epoch_end. py_unfold.
  split; [| split]; (split; [| split]).
  all: try (intros Hmiss; now rewrite comprehension_missing).
  all: try (intros Hfirst Hmiss;
            destruct (comprehension_present _ _ Hfirst) as (values & -> & _);
            now rewrite comprehension_missing).
  all: intros Hfirst Hsecond;
    destruct (comprehension_present _ _ Hfirst) as (values & -> & _);
    destruct (comprehension_present _ _ Hsecond) as (values' & -> & _);
    reflexivity.
Qed.

Lemma epoch_end_key_errors_witness :
  @LightningModel.training_epoch_end
    (Sample.externals Sample.bytes_tokenizer Sample.scores3) Sample.lightning
    [ {[ "loss" := f32_one; "acc" := f32_one ]}; {[ "loss" := f32_one ]}; ∅ ]
  = Raise (KeyError (Str "loss"))
  /\ @LightningModel.validation_epoch_end
       (Sample.externals Sample.bytes_tokenizer Sample.scores3) Sample.lightning
       [ {[ "val_loss" := f32_one; "val_acc" := f32_one ]}; {[ "val_acc" := f32_one ]} ]
     = Raise (KeyError (Str "val_loss")).
Proof.
  split.
  - apply (proj1 (proj1 (@epoch_end_key_errors
                           (Sample.externals Sample.bytes_tokenizer Sample.scores3)
                           Sample.lightning _))).
    do 2 apply Exists_cons_tl. now apply Exists_cons_hd.
  - apply (proj1 (proj2 (proj1 (proj2 (@epoch_end_key_errors
                                         (Sample.externals Sample.bytes_tokenizer
                                            Sample.scores3)
                                         Sample.lightning _))))).
    + repeat constructor; now eexists.
    + apply Exists_cons_tl. now apply Exists_cons_hd.
Defined.

(** X13. On an empty pass (no output at all) a hook does not fail: it logs
    NaN, the float32 mean of no value, under both labels of its phase. *)
Theorem epoch_end_empty_logs_nan `{Externals} (self : LightningModel.t) :
  LightningModel.training_epoch_end self []
  = Ok (LightningModel.mk
          (LightningModel.config self) (LightningModel.auto_config self)
          (LightningModel.model self) (LightningModel.accuracy self)
          (LightningModel.logged self
           ++ [ LightningModel.mkLogEntry "train/loss" S754_nan false true true;
                LightningModel.mkLogEntry "train/acc" S754_nan false true true ]))
  /\ LightningModel.validation_epoch_end self []
     = Ok (LightningModel.mk
             (LightningModel.config self) (LightningModel.auto_config self)
             (LightningModel.model self) (LightningModel.accuracy self)
             (LightningModel.logged self
              ++ [ LightningModel.mkLogEntry "val/loss" S754_nan false true true;
                   LightningModel.mkLogEntry "val/acc" S754_nan false true true ]))
  /\ LightningModel.test_epoch_end self []
     = Ok (LightningModel.mk
             (LightningModel.config self) (LightningModel.auto_config self)
             (LightningModel.model self) (LightningModel.accuracy self)
             (LightningModel.logged self
              ++ [ LightningModel.mkLogEntry "test/loss" S754_nan false true true;
                   LightningModel.mkLogEntry "test/acc" S754_nan false true true ])).
Proof.
  unfold LightningModel.training_epoch_end, LightningModel.validation_epoch_end,
    LightningModel.test_epoch_end, LightningModel.log. py_unfold.
  cbn [comprehension Py.bind]. rewrite mean_empty.
  cbn [LightningModel.config LightningModel.auto_config LightningModel.model
       LightningModel.accuracy LightningModel.logged].
  rewrite <- !app_assoc. repeat split.
Qed.

(** X14. The vocabulary has to fit the class count: at a row whose label is
    in the vocabulary with a class index that is not below [num_classes]
    (and [num_classes] is not -1), [__getitem__] raises [RuntimeError],
    whatever the sentence and the tokenizer.  With 2 classes this is every
    "neutral" row. *)
Theorem getitem_class_out_of_range `{Externals} (path : string) (hp : HParams)
    (is_train : bool) (self : CSLMDataset.t) (i : nat) (sentence : value)
    (label : string) (k : Z) :
  CSLMDataset.__init__ path hp is_train = Ok self ->
  rows (CSLMDataset.data self) !! i = Some (sentence, Str label) ->
  CSLMDataset.labels2num self !! label = Some k ->
  num_classes hp <= k -> num_classes hp <> -1 ->
  CSLMDataset.__getitem__ self (Z.of_nat i) = Raise RuntimeError.
Proof.
  intros Hinit Hrow Hlabel Hk Hne.
  destruct (dataset_init_inv _ _ _ _ Hinit) as (_ & _ & Hhp & Hvoc).
  pose proof (lookup_lt_Some _ _ _ Hrow) as Hlt.
  rewrite (getitem_at_row _ _ _ _ _ (position_inside _ _ Hlt) Hrow). py_unfold.
  unfold Py.getitem. rewrite Hlabel, Hhp.
  destruct (one_hot (scalar_tensor k) (num_classes hp)) as [t | e] eqn:Ht.
  - assert (Hk0 : 0 <= k).
    { rewrite Hvoc in Hlabel.
      destruct (vocabulary_lookup _ _ Hlabel) as [[_ ->] | [[_ ->] | [_ ->]]]; lia. }
    apply (one_hot_scalar_inv _ _ _ Hk0) in Ht as [[Hlt' | Heq] _]; lia.
  - now apply one_hot_raise in Ht as ->.
Qed.

Lemma getitem_class_out_of_range_witness :
  CSLMDataset.__getitem__ (Sample.dataset 2 Sample.unpadded_tokenizer) 1
  = Raise RuntimeError.
Proof.
  apply (@getitem_class_out_of_range
           (Sample.externals Sample.unpadded_tokenizer Sample.scores2)
           "train.csv" (Sample.hp 2 "true") true
           (Sample.dataset 2 Sample.unpadded_tokenizer) 1%nat (Str "so so") "neutral" 2);
    try reflexivity; simpl; lia.
Defined.

(** X15. A hook fed with the outputs of its own phase's steps returns, and
    what it logs are the means of what the steps computed: the mean of
    their losses under "<phase>/loss" and the mean of their accuracies under
    "<phase>/acc". *)
Theorem epoch_end_of_steps `{Externals} (self0 self : LightningModel.t)
    (outputs : list (gmap string f32)) (results : list (f32 * f32)) :
  (Forall2 (fun d r => exists batch i,
                LightningModel.training_step self0 batch i = Ok d
                /\ Contract.per_phase_step self0 batch = Ok r) outputs results ->
   LightningModel.training_epoch_end self outputs
   = Ok (LightningModel.mk
           (LightningModel.config self) (LightningModel.auto_config self)
           (LightningModel.model self) (LightningModel.accuracy self)
           (LightningModel.logged self
            ++ [ LightningModel.mkLogEntry "train/loss"
                   (mean sum_order (tensor_of_list (map fst results))) false true true;
                 LightningModel.mkLogEntry "train/acc"
                   (mean sum_order (tensor_of_list (map snd results))) false true true ])))
  /\ (Forall2 (fun d r => exists batch i d',
                  LightningModel.validation_step self0 batch i d' = Ok d
                  /\ Contract.per_phase_step self0 batch = Ok r) outputs results ->
      LightningModel.validation_epoch_end self outputs
      = Ok (LightningModel.mk
              (LightningModel.config self) (LightningModel.auto_config self)
              (LightningModel.model self) (LightningModel.accuracy self)
              (LightningModel.logged self
               ++ [ LightningModel.mkLogEntry "val/loss"
                      (mean sum_order (tensor_of_list (map fst results))) false true true;
                    LightningModel.mkLogEntry "val/acc"
                      (mean sum_order (tensor_of_list (map snd results))) false true true ])))
  /\ (Forall2 (fun d r => exists batch i d',
                  LightningModel.test_step self0 batch i d' = Ok d
                  /\ Contract.per_phase_step self0 batch = Ok r) outputs results ->
      LightningModel.test_epoch_end self outputs
      = Ok (LightningModel.mk
              (LightningModel.config self) (LightningModel.auto_config self)
              (LightningModel.model self) (LightningModel.accuracy self)
              (LightningModel.logged self
               ++ [ LightningModel.mkLogEntry "test/loss"
                      (mean sum_order (tensor_of_list (map fst results))) false true true;
                    LightningModel.mkLogEntry "test/acc"
                      (mean sum_order (tensor_of_list (map snd results))) false true true ]))).
Proof.
  split; [| split]; intros Hsteps.
  - assert (Houtputs : outputs = map (fun r => {[ "loss" := fst r; "acc" := snd r ]}) results).
    { induction Hsteps as [| d r outputs results (batch & i & Hd & Hr) _ IH];
        [reflexivity |].
      rewrite training_step_keyed, Hr in Hd. injection Hd as <-. simpl. now rewrite IH. }
    subst outputs. unfold LightningModel.training_epoch_end, LightningModel.log. py_unfold.
    rewrite (comprehension_key "loss" _ fst) by (intros r; apply lookup_first).
    rewrite (comprehension_key "acc" _ snd) by (intros r; now apply lookup_second).
    cbn [LightningModel.config LightningModel.auto_config LightningModel.model
         LightningModel.accuracy LightningModel.logged].
    now rewrite <- !app_assoc.
  - assert (Houtputs : outputs
                       = map (fun r => {[ "val_loss" := fst r; "val_acc" := snd r ]}) results).
    { induction Hsteps as [| d r outputs results (batch & i & d' & Hd & Hr) _ IH];
        [reflexivity |].
      rewrite validation_step_keyed, Hr in Hd. injection Hd as <-. simpl. now rewrite IH. }
    subst outputs. unfold LightningModel.validation_epoch_end, LightningModel.log. py_unfold.
    rewrite (comprehension_key "val_acc" _ snd) by (intros r; now apply lookup_second).
    rewrite (comprehension_key "val_loss" _ fst) by (intros r; apply lookup_first).
    cbn [LightningModel.config LightningModel.auto_config LightningModel.model
         LightningModel.accuracy LightningModel.logged].
    now rewrite <- !app_assoc.
  - assert (Houtputs : outputs
                       = map (fun r => {[ "test_loss" := fst r; "test_acc" := snd r ]}) results).
    { induction Hsteps as [| d r outputs results (batch & i & d' & Hd & Hr) _ IH];
        [reflexivity |].
      rewrite test_step_keyed, Hr in Hd. injection Hd as <-. simpl. now rewrite IH. }
    subst outputs. unfold LightningModel.test_epoch_end, LightningModel.log. py_unfold.
    rewrite (comprehension_key "test_acc" _ snd) by (intros r; now apply lookup_second).
    rewrite (comprehension_key "test_loss" _ fst) by (intros r; apply lookup_first).
    cbn [LightningModel.config LightningModel.auto_config LightningModel.model
         LightningModel.accuracy LightningModel.logged].
    now rewrite <- !app_assoc.
Qed.

Lemma epoch_end_of_steps_witness :
  exists d,
    @LightningModel.training_step (Sample.externals Sample.bytes_tokenizer Sample.scores3)
      Sample.lightning Sample.batch3 0 = Ok d
    /\ @LightningModel.training_epoch_end
         (Sample.externals Sample.bytes_tokenizer Sample.scores3) Sample.lightning [d; d]
       = Ok (LightningModel.mk
               (LightningModel.config Sample.lightning)
               (LightningModel.auto_config Sample.lightning)
               (LightningModel.model Sample.lightning)
               (LightningModel.accuracy Sample.lightning)
               ([] ++ [ LightningModel.mkLogEntry "train/loss"
                          (mean left_to_right
                             (tensor_of_list (map fst [(f32_zero, f32_one);
                                                       (f32_zero, f32_one)])))
                          false true true;
                        LightningModel.mkLogEntry "train/acc"
                          (mean left_to_right
                             (tensor_of_list (map snd [(f32_zero, f32_one);
                                                       (f32_zero, f32_one)])))
                          false true true ])).
Proof.
  destruct (@LightningModel.training_step
              (Sample.externals Sample.bytes_tokenizer Sample.scores3)
              Sample.lightning Sample.batch3 0) as [d |] eqn:Hd; [| discriminate].
  exists d. split; [reflexivity |].
  apply (proj1 (@epoch_end_of_steps
                  (Sample.externals Sample.bytes_tokenizer Sample.scores3)
                  Sample.lightning Sample.lightning [d; d]
                  [(f32_zero, f32_one); (f32_zero, f32_one)])).
  repeat constructor; exists Sample.batch3, 0; (split; [exact Hd | reflexivity]).
Defined.
